(** * CloudRunPy: the request/response layer of the CloudRun client

    A shallow embedding of [CloudRunPy.py] (classes [Connection], [Request],
    [Response], [CloudRunError]) and of the library calls it relies on
    ([base64.standard_b64encode], [requests.post],
    [Response.raise_for_status], file objects), followed by the properties
    the specification states about them.

    Python values are modelled by [pyval]; dicts are finite maps with string
    keys; the one mutable dict of the program (the class attribute
    [Request.data]), the file objects and the HTTP exchanges live in an
    explicit [world] that every method threads through. *)

From Stdlib Require Import ZArith NArith List Lia DecimalString.
From Stdlib.Strings Require Import String Ascii Byte.
From stdpp Require Import gmap strings list.

Set Warnings "-register-all".

(* ================================================================== *)
(** ** base64 (the standard alphabet of RFC 4648, with padding)        *)
(* ================================================================== *)

Module base64.

Local Open Scope N_scope.

(** The 64 output characters, indexed by the 6-bit value they stand for. *)
Definition table_b2a : list byte :=
  list_byte_of_string
    "ABCDEFGHIJKLMNOPQRSTUVWXYZabcdefghijklmnopqrstuvwxyz0123456789+/"%string.

Definition PAD : byte := "="%byte.

Definition b2a (i : N) : byte := nth (N.to_nat i) table_b2a PAD.

(** The 24-bit word of an input group; missing bytes of a short last
    group count as zero. *)
Definition word24 (a b c : byte) : N :=
  N.lor (N.lor (N.shiftl (Byte.to_N a) 16) (N.shiftl (Byte.to_N b) 8))
        (Byte.to_N c).

Definition sextet (w : N) (k : N) : N := N.land (N.shiftr w k) 63.

(** [base64.standard_b64encode]: bytes in, bytes out. Three input bytes
    give four characters; a last group of one or two bytes is padded
    with [=]. *)
Fixpoint standard_b64encode (s : list byte) : list byte :=
  match s with
  | [] => []
  | [a] =>
      let w := word24 a x00 x00 in
      [b2a (sextet w 18); b2a (sextet w 12); PAD; PAD]
  | [a; b] =>
      let w := word24 a b x00 in
      [b2a (sextet w 18); b2a (sextet w 12); b2a (sextet w 6); PAD]
  | a :: b :: c :: rest =>
      let w := word24 a b c in
      b2a (sextet w 18) :: b2a (sextet w 12) :: b2a (sextet w 6)
        :: b2a (sextet w 0) :: standard_b64encode rest
  end.

(** The decoder a receiver applies to a stored field: the inverse
    alphabet, four characters to three bytes, padding accepted only in
    the last group. It is not part of the client; the round-trip
    property is stated against it. *)
Definition a2b (c : byte) : option N :=
  let n := Byte.to_N c in
  if (65 <=? n) && (n <=? 90) then Some (n - 65)
  else if (97 <=? n) && (n <=? 122) then Some (n - 71)
  else if (48 <=? n) && (n <=? 57) then Some (n + 4)
  else if n =? 43 then Some 62
  else if n =? 47 then Some 63
  else None.

Definition word_of_sextets (i1 i2 i3 i4 : N) : N :=
  N.lor (N.lor (N.lor (N.shiftl i1 18) (N.shiftl i2 12)) (N.shiftl i3 6)) i4.

Definition octet (w : N) (k : N) : option byte :=
  Byte.of_N (N.land (N.shiftr w k) 255).

Definition is_pad (c : byte) : bool := Byte.eqb c PAD.

(** One group of four characters; [n] is the number of bytes it holds. *)
Definition decode_group (c1 c2 c3 c4 : byte) (n : nat) : option (list byte) :=
  i1 ← a2b c1;
  i2 ← a2b c2;
  i3 ← (if (n <=? 1)%nat then Some 0 else a2b c3);
  i4 ← (if (n <=? 2)%nat then Some 0 else a2b c4);
  let w := word_of_sextets i1 i2 i3 i4 in
  b1 ← octet w 16;
  b2 ← octet w 8;
  b3 ← octet w 0;
  Some (take n [b1; b2; b3]).

Fixpoint b64decode_bytes (s : list byte) : option (list byte) :=
  match s with
  | [] => Some []
  | c1 :: c2 :: c3 :: c4 :: rest =>
      match rest with
      | [] =>
          if is_pad c4
          then if is_pad c3 then decode_group c1 c2 c3 c4 1
               else decode_group c1 c2 c3 c4 2
          else decode_group c1 c2 c3 c4 3
      | _ =>
          g ← decode_group c1 c2 c3 c4 3;
          r ← b64decode_bytes rest;
          Some (g ++ r)
      end
  | _ => None
  end.

Definition b64decode (s : string) : option (list byte) :=
  b64decode_bytes (list_byte_of_string s).

End base64.

(* ================================================================== *)
(** ** Python values, exceptions and results                            *)
(* ================================================================== *)

(** The values that travel through the client: what [json] can encode and
    decode, with integers for numbers. A dict has string keys. *)
Inductive pyval :=
| VNone
| VBool (b : bool)
| VInt (z : Z)
| VStr (s : string)
| VList (l : list pyval)
| VDict (d : gmap string pyval).

(** The exceptions the client raises itself or lets through. *)
Inductive exn :=
| KeyError (key : string)
| ValueError (msg : string)
| TypeError (msg : string)
| AttributeError (msg : string)
| OSError (msg : string)
| UnicodeDecodeError
| JSONDecodeError
| HTTPError (status : Z)
| RequestException (kind : string)
| CloudRunError (msg : string).

Inductive result (A : Type) :=
| Return (a : A)
| Raise (e : exn).
Arguments Return {A} a.
Arguments Raise {A} e.

(** [x in answer] for a string [x]: key membership on a dict, element
    membership on a list, substring test on a str; other values are not
    iterable. *)
Fixpoint is_infix (p s : string) : bool :=
  String.prefix p s
  || match s with
     | EmptyString => false
     | String _ s' => is_infix p s'
     end.

Definition is_str (x : string) (v : pyval) : bool :=
  match v with
  | VStr s => String.eqb s x
  | _ => false
  end.

Definition py_contains (x : string) (v : pyval) : result bool :=
  match v with
  | VDict d => Return (bool_decide (is_Some (d !! x)))
  | VList l => Return (existsb (is_str x) l)
  | VStr s => Return (is_infix x s)
  | _ => Raise (TypeError "argument is not iterable")
  end.

(** [v[key]] for a string [key]. *)
Definition py_getitem (v : pyval) (key : string) : result pyval :=
  match v with
  | VDict d =>
      match d !! key with
      | Some x => Return x
      | None => Raise (KeyError key)
      end
  | VList _ => Raise (TypeError "list indices must be integers or slices, not str")
  | VStr _ => Raise (TypeError "string indices must be integers")
  | _ => Raise (TypeError "object is not subscriptable")
  end.

(** [str(v)]. Scalars are rendered here; the text of a list or a dict
    (its [repr], which depends on insertion order and quoting) is left to
    [repr_container]. *)
Definition py_str (repr_container : pyval → string) (v : pyval) : string :=
  match v with
  | VNone => "None"
  | VBool true => "True"
  | VBool false => "False"
  | VInt z => NilZero.string_of_int (Z.to_int z)
  | VStr s => s
  | VList _ | VDict _ => repr_container v
  end.

(* ================================================================== *)
(** ** The [requests] library, as far as the client uses it             *)
(* ================================================================== *)

Module requests.

(** The arguments of one [requests.post(url, json=..., verify=...,
    timeout=..., auth=..., proxies=...)]. *)
Record call := {
  c_url : string;
  c_json : gmap string pyval;
  c_verify : pyval;
  c_timeout : pyval;
  c_auth : pyval;
  c_proxies : pyval;
}.

(** A [requests.Response]: [json] is what [.json()] yields, [None] when
    the body is not a JSON document. *)
Record Response := {
  status_code : Z;
  headers : gmap string string;
  json : option pyval;
}.

(** [post] either returns a response or raises (connection refused,
    timeout, TLS failure, ...). *)
Inductive outcome :=
| Returns (r : Response)
| Raises (e : exn).

(** [Response.raise_for_status] raises [HTTPError] for the client-error
    and server-error classes, 400 to 599, and for nothing else. *)
Definition is_error_status (status : Z) : bool :=
  ((400 <=? status) && (status <? 600))%Z.

End requests.

(* ================================================================== *)
(** ** The world: shared objects and the network                        *)
(* ================================================================== *)

(** What [file.read()] returns: [bytes] for a file opened in binary mode,
    [str] for one opened in text mode. *)
Inductive read_value :=
| RBytes (b : list byte)
| RStr (s : string).

(** A file object: whether it is closed, and what a [read()] yields while
    it is open (a value, or the error the operating system reports). *)
Record file := {
  closed : bool;
  pending : result read_value;
}.

(** An object handed in as a file that is no file object: it has [read()],
    and its [close()] fails, being missing ([AttributeError]) or raising.
    It has no [closed] state. *)
Record reader := {
  r_read : result read_value;
  r_close : exn;
}.

(** The attributes a [Request] instance owns. [Request.__init__] binds
    [module] and nothing else: [data] is bound once, in the class body, to
    one dict, and no method ever binds it on an instance. *)
Record instance := { module : pyval }.

Record world := {
  (** the dict object bound to the class attribute [Request.data] *)
  Request_data : gmap string pyval;
  (** the [Request] instances, by identity *)
  objects : gmap nat instance;
  (** the file objects, by identity *)
  files : gmap nat file;
  (** the other objects with a [read()], by identity *)
  readers : gmap nat reader;
  (** the text of the [ValueError] a closed file raises on [read()]; it
      depends on the class of the handle: [read of closed file] for the
      buffered reader [open(path, 'rb')] gives, [I/O operation on closed
      file.] for a text-mode handle *)
  closed_text : nat → string;
  (** how the network answers a POST *)
  remote : requests.call → requests.outcome;
  (** the POSTs performed so far, oldest first *)
  posted : list requests.call;
}.

Definition set_Request_data (d : gmap string pyval) (w : world) : world :=
  {| Request_data := d; objects := objects w; files := files w;
     readers := readers w; closed_text := closed_text w;
     remote := remote w; posted := posted w |}.

Definition set_object (id : nat) (o : instance) (w : world) : world :=
  {| Request_data := Request_data w; objects := <[id := o]> (objects w);
     files := files w; readers := readers w; closed_text := closed_text w;
     remote := remote w; posted := posted w |}.

Definition set_file (fd : nat) (f : file) (w : world) : world :=
  {| Request_data := Request_data w; objects := objects w;
     files := <[fd := f]> (files w); readers := readers w;
     closed_text := closed_text w; remote := remote w; posted := posted w |}.

Definition set_reader (fd : nat) (r : reader) (w : world) : world :=
  {| Request_data := Request_data w; objects := objects w; files := files w;
     readers := <[fd := r]> (readers w); closed_text := closed_text w;
     remote := remote w; posted := posted w |}.

Definition log_post (c : requests.call) (w : world) : world :=
  {| Request_data := Request_data w; objects := objects w; files := files w;
     readers := readers w; closed_text := closed_text w;
     remote := remote w; posted := posted w ++ [c] |}.

(** Computations: read and change the world, return or raise. *)
Definition M (A : Type) : Type := world → result A * world.

Definition ret {A} (a : A) : M A := λ w, (Return a, w).
Definition raise {A} (e : exn) : M A := λ w, (Raise e, w).
Definition bind {A B} (m : M A) (k : A → M B) : M B :=
  λ w, match m w with
       | (Return a, w') => k a w'
       | (Raise e, w') => (Raise e, w')
       end.
Definition lift {A} (r : result A) : M A := λ w, (r, w).
Definition gets {A} (f : world → A) : M A := λ w, (Return (f w), w).
Definition modify (f : world → world) : M unit := λ w, (Return tt, f w).

Declare Scope py_scope.
Delimit Scope py_scope with py.
Notation "x <- m ;; k" := (bind m (λ x, k))
  (at level 100, m at next level, right associativity) : py_scope.
Notation "m ;; k" := (bind m (λ _, k))
  (at level 100, right associativity) : py_scope.
Local Open Scope py_scope.

(* ================================================================== *)
(** ** File objects and byte strings                                    *)
(* ================================================================== *)

Definition no_read : exn := AttributeError "object has no attribute 'read'".

(** Where a file stands once it has been read to its end. *)
Definition at_end (x : read_value) : read_value :=
  match x with
  | RBytes _ => RBytes []
  | RStr _ => RStr ""
  end.

(** [file.read()]: the whole remaining content. A closed file raises
    [ValueError] with the text of its class. *)
Definition file_read (fd : nat) : M read_value :=
  f <- gets (λ w, files w !! fd);;
  match f with
  | Some f =>
      if closed f then
        text <- gets (λ w, closed_text w fd);;
        raise (ValueError text)
      else match pending f with
           | Return x =>
               modify (set_file fd {| closed := false; pending := Return (at_end x) |});;
               ret x
           | Raise e => raise e
           end
  | None =>
      r <- gets (λ w, readers w !! fd);;
      match r with
      | None => raise no_read
      | Some r =>
          match r_read r with
          | Return x =>
              modify (set_reader fd {| r_read := Return (at_end x);
                                       r_close := r_close r |});;
              ret x
          | Raise e => raise e
          end
      end
  end.

(** [file.close()]: a file object is closed (closing a closed file is
    allowed); on any other object the call fails. *)
Definition file_close (fd : nat) : M unit :=
  f <- gets (λ w, files w !! fd);;
  match f with
  | Some f => modify (set_file fd {| closed := true; pending := pending f |})
  | None =>
      r <- gets (λ w, readers w !! fd);;
      match r with
      | Some r => raise (r_close r)
      | None => raise (AttributeError "object has no attribute 'close'")
      end
  end.

(** [base64.standard_b64encode(x)] on what [read] returned: a [str]
    argument is refused. *)
Definition py_standard_b64encode (x : read_value) : result (list byte) :=
  match x with
  | RBytes b => Return (base64.standard_b64encode b)
  | RStr _ => Raise (TypeError "a bytes-like object is required, not 'str'")
  end.

(** [b.decode('ascii')]. *)
Definition is_ascii_byte (b : byte) : bool := (Byte.to_N b <? 128)%N.

Definition decode_ascii (b : list byte) : result string :=
  if forallb is_ascii_byte b then Return (string_of_list_byte b)
  else Raise UnicodeDecodeError.

(* ================================================================== *)
(** ** class Request                                                    *)
(* ================================================================== *)

Module Request.

(** A [Request] object is known by its identity. *)
Definition t := nat.

(** [self.module = module] *)
Definition __init__ (self : t) (module : pyval) : M unit :=
  modify (set_object self {| module := module |}).

(** [Request(module)]: a new object, then [__init__]. *)
Definition new (module : pyval) : M t :=
  self <- gets (λ w, fresh (dom (objects w)));;
  __init__ self module;;
  ret self.

(** [self.module] *)
Definition get_module (self : t) : M pyval :=
  o <- gets (λ w, objects w !! self);;
  match o with
  | Some o => ret (module o)
  | None => raise (AttributeError "'Request' object has no attribute 'module'")
  end.

(** [self.data]: the instance has no [data] of its own, so the lookup
    ends at the class attribute. *)
Definition data (self : t) : M (gmap string pyval) :=
  gets Request_data.

(** [self.data[name] = value] *)
Definition setData (self : t) (name : string) (value : pyval) : M unit :=
  d <- data self;;
  modify (set_Request_data (<[name := value]> d)).

(** [self.data[name] = base64.standard_b64encode(file.read()).decode('ascii')]
    and then [file.close()]. *)
Definition setDataFromFile (self : t) (name : string) (file : nat) : M unit :=
  content <- file_read file;;
  encoded <- lift (py_standard_b64encode content);;
  text <- lift (decode_ascii encoded);;
  setData self name (VStr text);;
  file_close file.

(** [del self.data[name]] *)
Definition removeData (self : t) (name : string) : M unit :=
  d <- data self;;
  match d !! name with
  | Some _ => modify (set_Request_data (delete name d))
  | None => raise (KeyError name)
  end.

(** [self.data.clear()] *)
Definition clearData (self : t) : M unit :=
  _ <- data self;;
  modify (set_Request_data ∅).

End Request.

(** An argument of [sendPreparedRequest]: an object whose type is
    [Request], an instance of a subclass of [Request] (its type is the
    subclass), or any other value. *)
Inductive pyobject :=
| Obj_Request (r : Request.t)
| Obj_subclass (r : Request.t)
| Obj_value (v : pyval).

(** [type(x) is Request] *)
Definition type_is_Request (x : pyobject) : bool :=
  match x with
  | Obj_Request _ => true
  | Obj_subclass _ | Obj_value _ => false
  end.

(** [isinstance(x, Request)] *)
Definition isinstance_Request (x : pyobject) : bool :=
  match x with
  | Obj_Request _ | Obj_subclass _ => true
  | Obj_value _ => false
  end.

(* ================================================================== *)
(** ** class Response                                                   *)
(* ================================================================== *)

Module Response.

Record t := {
  raw : requests.Response;
  response : pyval;
  status_code : Z;
  headers : gmap string string;
}.

(** [response.json()] *)
Definition json (r : requests.Response) : M pyval :=
  match requests.json r with
  | Some v => ret v
  | None => raise JSONDecodeError
  end.

Definition __init__ (response : requests.Response) : M t :=
  body <- json response;;
  ret {| raw := response;
         response := body;
         status_code := requests.status_code response;
         headers := requests.headers response |}.

End Response.

(* ================================================================== *)
(** ** class Connection                                                 *)
(* ================================================================== *)

Module Connection.

Record t := {
  url : pyval;
  port : pyval;
  token : pyval;
  verifySSL : pyval;
  timeout : pyval;
  auth : pyval;
  proxies : pyval;
}.

(** [Connection(url, port, token)]: the class-level defaults
    [verifySSL = True], [timeout = 60], [auth = None], [proxies = None]
    apply until the caller assigns others. *)
Definition __init__ (url port token : pyval) : t :=
  {| url := url; port := port; token := token;
     verifySSL := VBool true; timeout := VInt 60;
     auth := VNone; proxies := VNone |}.

(** [requests.post]: the exchange is logged, the network decides the
    outcome. *)
Definition post (c : requests.call) : M requests.Response :=
  out <- gets (λ w, remote w c);;
  modify (log_post c);;
  match out with
  | requests.Returns r => ret r
  | requests.Raises e => raise e
  end.

(** [req.raise_for_status()] *)
Definition raise_for_status (r : requests.Response) : M unit :=
  if requests.is_error_status (requests.status_code r)
  then raise (HTTPError (requests.status_code r))
  else ret tt.

Section Dispatch.

(** The text [str] gives a list or a dict. *)
Variable repr_container : pyval → string.

Local Notation "'str'" := (py_str repr_container).

(** [str(self.url) + ":" + str(self.port) + "/" + str(handler) + "/"] *)
Definition endpoint (self : t) (handler : pyval) : string :=
  str (url self) +:+ ":" +:+ str (port self) +:+ "/" +:+ str handler +:+ "/".

(** The arguments [__request] hands to [requests.post]. *)
Definition post_args (self : t) (handler : pyval) (payload : gmap string pyval)
  : requests.call :=
  {| requests.c_url := endpoint self handler;
     requests.c_json := payload;
     requests.c_verify := verifySSL self;
     requests.c_timeout := timeout self;
     requests.c_auth := auth self;
     requests.c_proxies := proxies self |}.

(** ["Error " + str(code) + ": " + str(message)] *)
Definition error_text (code message : pyval) : string :=
  "Error " +:+ str code +:+ ": " +:+ str message.

Definition __request (self : t) (handler : pyval) (payload : gmap string pyval)
  : M requests.Response :=
  req <- post (post_args self handler payload);;
  raise_for_status req;;
  answer <- Response.json req;;
  has_error <- lift (py_contains "error" answer);;
  if has_error : bool then
    e1 <- lift (py_getitem answer "error");;
    code <- lift (py_getitem e1 "code");;
    e2 <- lift (py_getitem answer "error");;
    message <- lift (py_getitem e2 "message");;
    raise (CloudRunError (error_text code message))
  else ret req.

Definition sendRequest (self : t) (module data : pyval) : M Response.t :=
  let payload : gmap string pyval :=
    <["data" := data]> (<["module" := module]> (<["token" := token self]> ∅)) in
  req <- __request self (VStr "request") payload;;
  Response.__init__ req.

Definition sendPreparedRequest (self : t) (request : pyobject) : M Response.t :=
  match request with
  | Obj_Request r =>
      m <- Request.get_module r;;
      d <- Request.data r;;
      sendRequest self m (VDict d)
  | Obj_subclass _ | Obj_value _ =>
      raise (ValueError "request has to be a Request object")
  end.

Definition sendCustomRequest (self : t) (handler data : pyval) : M Response.t :=
  let payload : gmap string pyval :=
    <["data" := data]> (<["token" := token self]> ∅) in
  req <- __request self handler payload;;
  Response.__init__ req.

End Dispatch.

End Connection.

(* ================================================================== *)
(** ** The error marker, and data for the examples                      *)
(* ================================================================== *)

(** The decoded body of [r] is a document with an [error] object that
    holds [code] and [message]. *)
Definition has_error_marker (r : requests.Response) (code message : pyval) : Prop :=
  ∃ d e : gmap string pyval,
    requests.json r = Some (VDict d)
    ∧ d !! "error" = Some (VDict e)
    ∧ e !! "code" = Some code
    ∧ e !! "message" = Some message.

(** A rendering for runs in which [str] only meets scalars. *)
Definition no_containers : pyval → string := λ _, ""%string.

Definition error_body (code message : pyval) : pyval :=
  VDict {[ "error" := VDict (<["message" := message]> {[ "code" := code ]}) ]}.

Definition ok_body : pyval := VDict {[ "result" := VStr "ok" ]}.

Definition reply (status : Z) (body : pyval) : requests.Response :=
  {| requests.status_code := status; requests.headers := ∅;
     requests.json := Some body |}.

(** A world with no objects yet, whose network answers every POST with [r]. *)
Definition answering (r : requests.Response) : world :=
  {| Request_data := ∅; objects := ∅; files := ∅; readers := ∅;
     closed_text := λ _, "read of closed file"%string;
     remote := λ _, requests.Returns r; posted := [] |}.

(** A world with one open file, number 0. *)
Definition with_file (content : result read_value) : world :=
  {| Request_data := ∅; objects := ∅;
     files := {[ 0%nat := {| closed := false; pending := content |} ]};
     readers := ∅;
     closed_text := λ _, "read of closed file"%string;
     remote := λ _, requests.Raises (RequestException "ConnectionError");
     posted := [] |}.

Definition example_connection : Connection.t :=
  Connection.__init__ (VStr "https://cloud.example") (VInt 8443) (VStr "secret").

(** The JSON body [sendRequest] builds, under a name for the examples. *)
Definition module_payload (self : Connection.t) (module data : pyval) : gmap string pyval :=
  <["data" := data]> (<["module" := module]> (<["token" := Connection.token self]> ∅)).

Definition hello : list byte := list_byte_of_string "hello, world!".

Definition bad_token : requests.Response :=
  reply 200 (error_body (VInt 42) (VStr "bad token")).

Definition not_found : requests.Response :=
  reply 404 (error_body (VInt 42) (VStr "bad token")).

(** [i] comes back from its character. *)
Definition inverts (i : N) : bool :=
  match base64.a2b (base64.b2a i) with
  | Some j => (j =? i)%N
  | None => false
  end.

(** More data for the examples. *)

(** A reply whose body is not a JSON document. *)
Definition not_json : requests.Response :=
  {| requests.status_code := 200; requests.headers := ∅; requests.json := None |}.

(** A world whose network cannot be reached. *)
Definition offline : world :=
  {| Request_data := ∅; objects := ∅; files := ∅; readers := ∅;
     closed_text := λ _, "read of closed file"%string;
     remote := λ _, requests.Raises (RequestException "ConnectTimeout");
     posted := [] |}.

(** A world with one object, number 0, that has [read()] and no
    [close()]. *)
Definition with_reader (content : result read_value) : world :=
  {| Request_data := ∅; objects := ∅; files := ∅;
     readers := {[ 0%nat := {| r_read := content;
                               r_close := AttributeError "object has no attribute 'close'" |} ]};
     closed_text := λ _, "read of closed file"%string;
     remote := λ _, requests.Raises (RequestException "ConnectTimeout");
     posted := [] |}.

(** A world with one request, number 0, for module [mail], and the data
    map [{"to": "ops"}]. *)
Definition one_request (r : requests.Response) : world :=
  set_object 0 {| module := VStr "mail" |}
    (set_Request_data {[ "to" := VStr "ops" ]} (answering r)).

(** The JSON body [sendCustomRequest] builds. *)
Definition custom_payload (self : Connection.t) (data : pyval) : gmap string pyval :=
  <["data" := data]> (<["token" := Connection.token self]> ∅).

Definition is_dict (v : pyval) : bool :=
  match v with
  | VDict _ => true
  | _ => false
  end.

(** What a dispatch to [handler] with [payload] comes to, said once for
    [__request] and for the entry points that run it: [sendCustomRequest]
    when [payload] is the body it builds, [sendRequest] when the handler
    is [request] and [payload] is the body it builds. *)
Definition dispatch_raises (repr : pyval → string) (self : Connection.t)
    (handler : pyval) (payload : gmap string pyval) (w : world)
    (e : exn) (w' : world) : Prop :=
  Connection.__request repr self handler payload w = (Raise e, w')
  ∧ (∀ data, payload = custom_payload self data →
             Connection.sendCustomRequest repr self handler data w = (Raise e, w'))
  ∧ (∀ module data,
       handler = VStr "request" → payload = module_payload self module data →
       Connection.sendRequest repr self module data w = (Raise e, w')).

Definition dispatch_returns (repr : pyval → string) (self : Connection.t)
    (handler : pyval) (payload : gmap string pyval) (w : world)
    (req : requests.Response) (resp : Response.t) (w' : world) : Prop :=
  Connection.__request repr self handler payload w = (Return req, w')
  ∧ (∀ data, payload = custom_payload self data →
             Connection.sendCustomRequest repr self handler data w = (Return resp, w'))
  ∧ (∀ module data,
       handler = VStr "request" → payload = module_payload self module data →
       Connection.sendRequest repr self module data w = (Return resp, w')).

(* ================================================================== *)
(** * Properties                                                        *)
(* ================================================================== *)

(** ** base64 on the test vectors of RFC 4648 section 10 and on a longer text *)

Example b64_foo :
  base64.standard_b64encode (list_byte_of_string "foo") = list_byte_of_string "Zm9v".
Proof. reflexivity. Qed.

Example b64_fo :
  base64.standard_b64encode (list_byte_of_string "fo") = list_byte_of_string "Zm8=".
Proof. reflexivity. Qed.

Example b64_f :
  base64.standard_b64encode (list_byte_of_string "f") = list_byte_of_string "Zg==".
Proof. reflexivity. Qed.

Example b64_hello :
  base64.standard_b64encode (list_byte_of_string "hello, world")
  = list_byte_of_string "aGVsbG8sIHdvcmxk".
Proof. reflexivity. Qed.

Example b64_dec_hello :
  base64.b64decode "aGVsbG8sIHdvcmxkIQ==" = Some (list_byte_of_string "hello, world!").
Proof. reflexivity. Qed.

(** ** Arithmetic of the base64 groups *)

Ltac euclid := zify; Z.to_euclidean_division_equations; lia.

Section base64_arith.

Local Open Scope N_scope.

(** Bits that do not overlap add up. *)
Lemma lor_disjoint_add (x lo k : N) :
  x mod 2 ^ k = 0 → lo < 2 ^ k → N.lor x lo = x + lo.
Proof.
  intros Hx Hlo.
  assert (Hland : N.land x lo = 0).
  { apply N.bits_inj. intros n. rewrite N.land_spec, N.bits_0.
    destruct (N.lt_ge_cases n k) as [Hn | Hn].
    - rewrite <- (N.mod_pow2_bits_low x k n Hn), Hx, N.bits_0. reflexivity.
    - rewrite <- (N.mod_small lo (2 ^ k) Hlo), (N.mod_pow2_bits_high lo k n Hn).
      apply andb_false_r. }
  rewrite (N.add_nocarry_lxor _ _ Hland). symmetry. apply N.lxor_lor, Hland.
Qed.

Lemma shiftl_mod_pow2 (x k : N) : N.shiftl x k mod 2 ^ k = 0.
Proof.
  rewrite N.shiftl_mul_pow2. apply N.Div0.mod_mul.
Qed.

Lemma byte_lt_256 (b : byte) : Byte.to_N b < 256.
Proof. pose proof (Byte.to_N_bounded b). lia. Qed.

Lemma word24_value (a b c : byte) :
  base64.word24 a b c = Byte.to_N a * 65536 + Byte.to_N b * 256 + Byte.to_N c.
Proof.
  unfold base64.word24.
  pose proof (byte_lt_256 a). pose proof (byte_lt_256 b). pose proof (byte_lt_256 c).
  rewrite (lor_disjoint_add _ (N.shiftl (Byte.to_N b) 8) 16).
  - rewrite (lor_disjoint_add _ (Byte.to_N c) 8).
    + rewrite !N.shiftl_mul_pow2. reflexivity.
    + rewrite !N.shiftl_mul_pow2. change (2 ^ 16) with 65536. change (2 ^ 8) with 256.
      euclid.
    + exact H1.
  - apply shiftl_mod_pow2.
  - rewrite N.shiftl_mul_pow2. change (2 ^ 16) with 65536. change (2 ^ 8) with 256. lia.
Qed.

Lemma sextet_value (w k : N) : base64.sextet w k = (w / 2 ^ k) mod 64.
Proof.
  unfold base64.sextet. change 63 with (N.ones 6).
  rewrite N.land_ones, N.shiftr_div_pow2. reflexivity.
Qed.

Lemma sextet_lt (w k : N) : base64.sextet w k < 64.
Proof. rewrite sextet_value. apply N.mod_lt. discriminate. Qed.

Lemma word_of_sextets_value (i1 i2 i3 i4 : N) :
  i1 < 64 → i2 < 64 → i3 < 64 → i4 < 64 →
  base64.word_of_sextets i1 i2 i3 i4 = i1 * 262144 + i2 * 4096 + i3 * 64 + i4.
Proof.
  intros H1 H2 H3 H4. unfold base64.word_of_sextets.
  rewrite (lor_disjoint_add _ (N.shiftl i2 12) 18).
  - rewrite (lor_disjoint_add _ (N.shiftl i3 6) 12).
    + rewrite (lor_disjoint_add _ i4 6).
      * rewrite !N.shiftl_mul_pow2. reflexivity.
      * rewrite !N.shiftl_mul_pow2.
        change (2 ^ 18) with 262144. change (2 ^ 12) with 4096. change (2 ^ 6) with 64.
        euclid.
      * exact H4.
    + rewrite !N.shiftl_mul_pow2.
      change (2 ^ 18) with 262144. change (2 ^ 12) with 4096. euclid.
    + rewrite N.shiftl_mul_pow2. change (2 ^ 12) with 4096. change (2 ^ 6) with 64. lia.
  - apply shiftl_mod_pow2.
  - rewrite N.shiftl_mul_pow2. change (2 ^ 18) with 262144. change (2 ^ 12) with 4096. lia.
Qed.

Lemma octet_value (w k : N) (b : byte) :
  (w / 2 ^ k) mod 256 = Byte.to_N b → base64.octet w k = Some b.
Proof.
  intros H. unfold base64.octet. change 255 with (N.ones 8).
  rewrite N.land_ones, N.shiftr_div_pow2. change (2 ^ 8) with 256.
  rewrite H. apply Byte.of_to_N.
Qed.

End base64_arith.

(** ** The alphabet and its inverse *)

Section base64_alphabet.

Local Open Scope N_scope.

(** A property checked on the numbers below [k] holds for each of them. *)
Lemma forall_below (p : N → bool) (k : nat) :
  forallb p (map N.of_nat (seq 0 k)) = true → ∀ i, i < N.of_nat k → p i = true.
Proof.
  intros Hall i Hi. rewrite forallb_forall in Hall. apply Hall.
  apply in_map_iff. exists (N.to_nat i). split.
  - apply N2Nat.id.
  - apply in_seq. lia.
Qed.

Lemma a2b_b2a (i : N) : i < 64 → base64.a2b (base64.b2a i) = Some i.
Proof.
  intros Hi.
  assert (H : inverts i = true).
  { apply (forall_below inverts 64); [vm_compute; reflexivity | exact Hi]. }
  unfold inverts in H. destruct (base64.a2b (base64.b2a i)) as [j|]; [|discriminate].
  apply N.eqb_eq in H. congruence.
Qed.

Lemma b2a_not_pad (i : N) : i < 64 → base64.is_pad (base64.b2a i) = false.
Proof.
  intros Hi.
  apply negb_true_iff.
  apply (forall_below (λ i, negb (base64.is_pad (base64.b2a i))) 64);
    [vm_compute; reflexivity | exact Hi].
Qed.

Lemma b2a_ascii (i : N) : is_ascii_byte (base64.b2a i) = true.
Proof.
  destruct (N.lt_ge_cases i 64) as [Hi | Hi].
  - apply (forall_below (λ i, is_ascii_byte (base64.b2a i)) 64);
      [vm_compute; reflexivity | exact Hi].
  - unfold base64.b2a. rewrite nth_overflow; [reflexivity|].
    change (length base64.table_b2a) with 64%nat. lia.
Qed.

End base64_alphabet.

(** ** Groups: four characters carry the three bytes they were made of *)

Section base64_groups.

Local Open Scope N_scope.

Lemma regroup (w : N) :
  w < 16777216 →
  base64.word_of_sextets (base64.sextet w 18) (base64.sextet w 12)
                         (base64.sextet w 6) (base64.sextet w 0) = w.
Proof.
  intros Hw. rewrite word_of_sextets_value by apply sextet_lt.
  rewrite !sextet_value.
  change (2 ^ 18) with 262144. change (2 ^ 12) with 4096.
  change (2 ^ 6) with 64. change (2 ^ 0) with 1.
  euclid.
Qed.

Lemma word24_lt (a b c : byte) : base64.word24 a b c < 16777216.
Proof.
  rewrite word24_value.
  pose proof (byte_lt_256 a). pose proof (byte_lt_256 b). pose proof (byte_lt_256 c).
  lia.
Qed.

Lemma octets_word24 (a b c : byte) :
  base64.octet (base64.word24 a b c) 16 = Some a
  ∧ base64.octet (base64.word24 a b c) 8 = Some b
  ∧ base64.octet (base64.word24 a b c) 0 = Some c.
Proof.
  pose proof (byte_lt_256 a). pose proof (byte_lt_256 b). pose proof (byte_lt_256 c).
  repeat split; apply octet_value; rewrite word24_value;
    change (2 ^ 16) with 65536; change (2 ^ 8) with 256; change (2 ^ 0) with 1;
    euclid.
Qed.

Lemma low_sextets_zero (a b : byte) :
  base64.sextet (base64.word24 a b x00) 0 = 0
  ∧ base64.sextet (base64.word24 a x00 x00) 6 = 0.
Proof.
  rewrite !sextet_value, !word24_value.
  change (Byte.to_N x00) with 0.
  change (2 ^ 6) with 64. change (2 ^ 0) with 1.
  split; euclid.
Qed.

Ltac run_group :=
  unfold base64.decode_group;
  rewrite !a2b_b2a by apply sextet_lt;
  cbn -[base64.word_of_sextets base64.octet base64.sextet base64.word24].

(** A full group. *)
Lemma decode_group3 (a b c : byte) :
  let w := base64.word24 a b c in
  base64.decode_group (base64.b2a (base64.sextet w 18)) (base64.b2a (base64.sextet w 12))
                      (base64.b2a (base64.sextet w 6)) (base64.b2a (base64.sextet w 0)) 3
  = Some [a; b; c].
Proof.
  intros w. run_group.
  unfold w. rewrite regroup by apply word24_lt.
  destruct (octets_word24 a b c) as (-> & -> & ->). reflexivity.
Qed.

(** A last group of two bytes, whatever stands in the padded place. *)
Lemma decode_group2 (a b : byte) (p : byte) :
  let w := base64.word24 a b x00 in
  base64.decode_group (base64.b2a (base64.sextet w 18)) (base64.b2a (base64.sextet w 12))
                      (base64.b2a (base64.sextet w 6)) p 2
  = Some [a; b].
Proof.
  intros w. run_group.
  destruct (low_sextets_zero a b) as [H0 _].
  assert (E : base64.word_of_sextets (base64.sextet w 18) (base64.sextet w 12)
                                     (base64.sextet w 6) 0 = w).
  { unfold w. etransitivity; [| apply (regroup _ (word24_lt a b x00))].
    rewrite H0. reflexivity. }
  rewrite E. unfold w.
  destruct (octets_word24 a b x00) as (-> & -> & ->). reflexivity.
Qed.

(** A last group of one byte. *)
Lemma decode_group1 (a : byte) (p q : byte) :
  let w := base64.word24 a x00 x00 in
  base64.decode_group (base64.b2a (base64.sextet w 18)) (base64.b2a (base64.sextet w 12))
                      p q 1
  = Some [a].
Proof.
  intros w. run_group.
  destruct (low_sextets_zero a x00) as [H0 H6].
  assert (E : base64.word_of_sextets (base64.sextet w 18) (base64.sextet w 12) 0 0 = w).
  { unfold w. etransitivity; [| apply (regroup _ (word24_lt a x00 x00))].
    rewrite H0, H6. reflexivity. }
  rewrite E. unfold w.
  destruct (octets_word24 a x00 x00) as (-> & -> & ->). reflexivity.
Qed.

End base64_groups.

(** ** Decoding undoes encoding *)

(** Lists three elements at a time. *)
Lemma list_ind3 {A} (P : list A → Prop) :
  P [] → (∀ a, P [a]) → (∀ a b, P [a; b]) →
  (∀ a b c l, P l → P (a :: b :: c :: l)) →
  ∀ l, P l.
Proof.
  intros H0 H1 H2 H3 l.
  cut (P l ∧ (∀ a, P (a :: l)) ∧ (∀ a b, P (a :: b :: l))); [tauto|].
  induction l as [|x l (IH0 & IH1 & IH2)].
  - auto.
  - repeat split; auto.
Qed.

Lemma encode_nil_inv (s : list byte) : base64.standard_b64encode s = [] → s = [].
Proof.
  destruct s as [|a [|b [|c rest]]]; [reflexivity | discriminate ..].
Qed.

Lemma is_pad_PAD : base64.is_pad base64.PAD = true.
Proof. reflexivity. Qed.

Lemma b64decode_bytes_encode (s : list byte) :
  base64.b64decode_bytes (base64.standard_b64encode s) = Some s.
Proof.
  induction s as [| a | a b | a b c rest IH] using list_ind3.
  - reflexivity.
  - cbn [base64.standard_b64encode base64.b64decode_bytes].
    rewrite is_pad_PAD. apply decode_group1.
  - cbn [base64.standard_b64encode base64.b64decode_bytes].
    rewrite is_pad_PAD, b2a_not_pad by apply sextet_lt. apply decode_group2.
  - cbn [base64.standard_b64encode]. cbv zeta.
    cbn [base64.b64decode_bytes].
    destruct (base64.standard_b64encode rest) as [|r1 rs] eqn:E.
    + apply encode_nil_inv in E. subst rest.
      rewrite b2a_not_pad by apply sextet_lt. apply decode_group3.
    + rewrite (decode_group3 a b c). cbn [mbind option_bind].
      change (base64.b64decode_bytes (r1 :: rs) = Some rest) in IH.
      rewrite IH. reflexivity.
Qed.

Lemma encode_ascii (s : list byte) :
  forallb is_ascii_byte (base64.standard_b64encode s) = true.
Proof.
  induction s as [| a | a b | a b c rest IH] using list_ind3;
    cbn [base64.standard_b64encode forallb]; cbv zeta;
    cbn [forallb]; rewrite ?b2a_ascii, ?IH; reflexivity.
Qed.

(** What [setDataFromFile] stores decodes back to the bytes it read. *)
Lemma b64decode_stored (b : list byte) :
  decode_ascii (base64.standard_b64encode b)
  = Return (string_of_list_byte (base64.standard_b64encode b))
  ∧ base64.b64decode (string_of_list_byte (base64.standard_b64encode b)) = Some b.
Proof.
  split.
  - unfold decode_ascii. rewrite encode_ascii. reflexivity.
  - unfold base64.b64decode. rewrite list_byte_of_string_of_list_byte.
    apply b64decode_bytes_encode.
Qed.


(** ** Running computations *)

Ltac run := unfold bind, ret, raise, lift, gets, modify; cbn.

(** ** The Request builder *)

(** C9: whatever the data map held, [clearData()] followed by
    [setData("x", 1)] leaves it equal to exactly [{"x": 1}]; [clearData]
    changes nothing but the data map, so the module of the instance is
    what it was. *)
Theorem C9_clear_then_set (self : Request.t) (w : world) :
  (Request.clearData self;; Request.setData self "x" (VInt 1);; Request.data self) w
  = (Return {[ "x" := VInt 1 ]}, set_Request_data {[ "x" := VInt 1 ]} w)
  ∧ Request.clearData self w = (Return tt, set_Request_data ∅ w)
  ∧ objects (snd (Request.clearData self w)) = objects w
  ∧ Request.get_module self (snd (Request.clearData self w))
    = (fst (Request.get_module self w), snd (Request.clearData self w)).
Proof.
  split; [|split; [|split]].
  - unfold Request.clearData, Request.setData, Request.data. run.
    rewrite insert_empty. reflexivity.
  - reflexivity.
  - reflexivity.
  - unfold Request.get_module, Request.clearData, Request.data. run.
    destruct (objects w !! self); reflexivity.
Qed.

(** C10: [removeData(name)] on a field the data map does not hold raises
    [KeyError] and leaves the world as it was; on a field it holds, it
    returns and the data map has lost that field and no other. *)
Theorem C10_removeData (self : Request.t) (name : string) (w : world) :
  match Request_data w !! name with
  | None => Request.removeData self name w = (Raise (KeyError name), w)
  | Some _ =>
      Request.removeData self name w
      = (Return tt, set_Request_data (delete name (Request_data w)) w)
      ∧ Request_data (snd (Request.removeData self name w)) !! name = None
      ∧ ∀ k, k ≠ name →
             Request_data (snd (Request.removeData self name w)) !! k
             = Request_data w !! k
  end.
Proof.
  unfold Request.removeData, Request.data. run.
  destruct (Request_data w !! name) as [v|] eqn:E; cbn.
  - split; [reflexivity|]. split.
    + apply lookup_delete_eq.
    + intros k Hk. apply lookup_delete_ne. congruence.
  - reflexivity.
Qed.

(** The first is raised on the map [{"a": 1}] asked to drop ["b"]. *)
Example removeData_missing :
  Request.removeData 0 "b" (set_Request_data {[ "a" := VInt 1 ]} (with_file (Raise UnicodeDecodeError)))
  = (Raise (KeyError "b"),
     set_Request_data {[ "a" := VInt 1 ]} (with_file (Raise UnicodeDecodeError))).
Proof. reflexivity. Qed.

(** C1 (the code shares the map): two requests built one after the other
    are distinct objects, yet a field set through the first is read
    through the second, and a request built after the write does not
    start empty. *)
Theorem C1_data_shared_between_requests
    (m1 m2 : pyval) (name : string) (value : pyval) (w : world) :
  (∃ r1 r2 w',
      (r1 <- Request.new m1;;
       r2 <- Request.new m2;;
       Request.setData r1 name value;;
       d <- Request.data r2;;
       ret (r1, r2, d)) w
      = (Return (r1, r2, <[name := value]> (Request_data w)), w')
      ∧ r1 ≠ r2)
  ∧ (∃ r1 r3 w',
        (r1 <- Request.new m1;;
         Request.setData r1 name value;;
         r3 <- Request.new m2;;
         d <- Request.data r3;;
         ret (r1, r3, d)) w
        = (Return (r1, r3, <[name := value]> (Request_data w)), w')
        ∧ r1 ≠ r3
        ∧ <[name := value]> (Request_data w) ≠ ∅).
Proof.
  assert (Hfresh : ∀ o,
    fresh (dom (objects w)) ≠ fresh (dom (<[fresh (dom (objects w)) := o]> (objects w)))).
  { intros o Heq.
    apply (is_fresh (dom (<[fresh (dom (objects w)) := o]> (objects w)))).
    rewrite <- Heq. rewrite dom_insert_L. set_solver. }
  split.
  - eexists _, _, _. split.
    + unfold Request.new, Request.__init__, Request.setData, Request.data. run.
      reflexivity.
    + apply Hfresh.
  - eexists _, _, _. split; [|split].
    + unfold Request.new, Request.__init__, Request.setData, Request.data. run.
      reflexivity.
    + apply Hfresh.
    + apply insert_non_empty.
Qed.

(** The run the specification's test would make: [r1 = Request("a")],
    [r2 = Request("b")], [r1.setData("x", 1)], then [r2.data]. *)
Example shared_data_run :
  fst ((r1 <- Request.new (VStr "a");;
        r2 <- Request.new (VStr "b");;
        Request.setData r1 "x" (VInt 1);;
        Request.data r2) (answering (reply 200 ok_body)))
  = Return {[ "x" := VInt 1 ]}.
Proof. reflexivity. Qed.

(** ** One dispatch *)

Section dispatch_facts.

Variable repr : pyval → string.

Local Notation "'str'" := (py_str repr).

(** A dispatch posts once, with the arguments [post_args] builds, and
    changes nothing else, however it ends. *)
Lemma request_world (self : Connection.t) (handler : pyval)
    (payload : gmap string pyval) (w : world) :
  snd (Connection.__request repr self handler payload w)
  = log_post (Connection.post_args repr self handler payload) w.
Proof.
  unfold Connection.__request, Connection.post, Connection.raise_for_status,
    Response.json.
  run.
  destruct (remote w _) as [r | e]; cbn; [|reflexivity].
  destruct (requests.is_error_status _); cbn; [reflexivity|].
  destruct (requests.json r) as [answer|]; cbn; [|reflexivity].
  destruct (py_contains "error" answer) as [[|] | e]; cbn; try reflexivity.
  destruct (py_getitem answer "error") as [e1 | e]; cbn; [|reflexivity].
  destruct (py_getitem e1 "code") as [c | e]; cbn; [|reflexivity].
  destruct (py_getitem e1 "message") as [m | e]; cbn; reflexivity.
Qed.

(** What [__request] raises, the entry points raise, in the same world. *)
Lemma sendRequest_raises self module data w e w' :
  Connection.__request repr self (VStr "request")
    (<["data" := data]> (<["module" := module]> (<["token" := Connection.token self]> ∅))) w
  = (Raise e, w') →
  Connection.sendRequest repr self module data w = (Raise e, w').
Proof.
  intros H. unfold Connection.sendRequest, bind. rewrite H. reflexivity.
Qed.

Lemma sendCustomRequest_raises self handler data w e w' :
  Connection.__request repr self handler
    (<["data" := data]> (<["token" := Connection.token self]> ∅)) w
  = (Raise e, w') →
  Connection.sendCustomRequest repr self handler data w = (Raise e, w').
Proof.
  intros H. unfold Connection.sendCustomRequest, bind. rewrite H. reflexivity.
Qed.

Lemma Response_init_world r w : snd (Response.__init__ r w) = w.
Proof.
  unfold Response.__init__, Response.json. run.
  destruct (requests.json r); reflexivity.
Qed.

Lemma sendRequest_world self module data w :
  snd (Connection.sendRequest repr self module data w)
  = log_post (Connection.post_args repr self (VStr "request")
      (<["data" := data]> (<["module" := module]> (<["token" := Connection.token self]> ∅)))) w.
Proof.
  unfold Connection.sendRequest, bind.
  pose proof (request_world self (VStr "request")
    (<["data" := data]> (<["module" := module]> (<["token" := Connection.token self]> ∅))) w) as H.
  destruct (Connection.__request _ _ _ _ w) as [[r | e] w1]; cbn in H; subst w1.
  - apply Response_init_world.
  - reflexivity.
Qed.

Lemma sendCustomRequest_world self handler data w :
  snd (Connection.sendCustomRequest repr self handler data w)
  = log_post (Connection.post_args repr self handler
      (<["data" := data]> (<["token" := Connection.token self]> ∅))) w.
Proof.
  unfold Connection.sendCustomRequest, bind.
  pose proof (request_world self handler
    (<["data" := data]> (<["token" := Connection.token self]> ∅)) w) as H.
  destruct (Connection.__request _ _ _ _ w) as [[r | e] w1]; cbn in H; subst w1.
  - apply Response_init_world.
  - reflexivity.
Qed.

(** C6: [sendRequest(module, data)] performs one POST and changes nothing
    else; the POST goes to [<url>:<port>/request/] and its JSON body has
    exactly the fields [token], [module] and [data], holding the
    connection's token and the two arguments as they were given. *)
Theorem C6_sendRequest_envelope
    (self : Connection.t) (module data : pyval) (w : world) :
  ∃ c : requests.call,
    snd (Connection.sendRequest repr self module data w) = log_post c w
    ∧ posted (snd (Connection.sendRequest repr self module data w)) = posted w ++ [c]
    ∧ requests.c_url c
      = str (Connection.url self) +:+ ":" +:+ str (Connection.port self) +:+ "/request/"
    ∧ requests.c_json c !! "token" = Some (Connection.token self)
    ∧ requests.c_json c !! "module" = Some module
    ∧ requests.c_json c !! "data" = Some data
    ∧ dom (requests.c_json c) = {[ "token"; "module"; "data" ]}.
Proof.
  eexists. split; [apply sendRequest_world|].
  split; [rewrite sendRequest_world; reflexivity|].
  split; [reflexivity|].
  cbn [Connection.post_args requests.c_json].
  split; [by simplify_map_eq|]. split; [by simplify_map_eq|]. split; [by simplify_map_eq|].
  rewrite !dom_insert_L, dom_empty_L. set_solver.
Qed.

(** C8: for a connection whose URL is the string [u] and whose port is
    the integer [p], [sendCustomRequest(handler, data)] with the handler
    name [h] performs one POST, to [u:p/h/] with [p] in decimal, whose JSON
    body has exactly the fields [token] and [data] and so no [module];
    [sendRequest] posts to the same shape of path with [request] as the
    handler, [u:p/request/]. *)
Theorem C8_sendCustomRequest_envelope
    (self : Connection.t) (handler data : pyval) (w : world)
    (u h : string) (p : Z) :
  Connection.url self = VStr u →
  Connection.port self = VInt p →
  handler = VStr h →
  (∃ c : requests.call,
      snd (Connection.sendCustomRequest repr self handler data w) = log_post c w
      ∧ posted (snd (Connection.sendCustomRequest repr self handler data w)) = posted w ++ [c]
      ∧ requests.c_url c
        = u +:+ ":" +:+ NilZero.string_of_int (Z.to_int p) +:+ "/" +:+ h +:+ "/"
      ∧ requests.c_json c !! "token" = Some (Connection.token self)
      ∧ requests.c_json c !! "data" = Some data
      ∧ requests.c_json c !! "module" = None
      ∧ dom (requests.c_json c) = {[ "token"; "data" ]})
  ∧ (∀ module, ∃ c : requests.call,
        posted (snd (Connection.sendRequest repr self module data w)) = posted w ++ [c]
        ∧ requests.c_url c
          = u +:+ ":" +:+ NilZero.string_of_int (Z.to_int p) +:+ "/" +:+ "request" +:+ "/").
Proof.
  intros Hu Hp ->. split.
  - eexists. split; [apply sendCustomRequest_world|].
    split; [rewrite sendCustomRequest_world; reflexivity|].
    split.
    { cbn [Connection.post_args requests.c_url]. unfold Connection.endpoint.
      rewrite Hu, Hp. reflexivity. }
    cbn [Connection.post_args requests.c_json].
    split; [by simplify_map_eq|]. split; [by simplify_map_eq|]. split; [by simplify_map_eq|].
    rewrite !dom_insert_L, dom_empty_L. set_solver.
  - intros module. eexists. split; [rewrite sendRequest_world; reflexivity|].
    cbn [Connection.post_args requests.c_url]. unfold Connection.endpoint.
    rewrite Hu, Hp. reflexivity.
Qed.

(** C4, as the code has it: handed an object whose type is not [Request]
    (any other value, and also an instance of a subclass of [Request]),
    [sendPreparedRequest] raises [ValueError], which is not a
    [CloudRunError], and leaves the world as it was, so nothing has been
    posted; handed an object [r] whose type is [Request], it does what
    [sendRequest(r.module, r.data)] does. *)
Theorem C4_sendPreparedRequest (self : Connection.t) (w : world) :
  (∀ x, type_is_Request x = false →
        Connection.sendPreparedRequest repr self x w
        = (Raise (ValueError "request has to be a Request object"), w))
  ∧ (∀ x, type_is_Request x = false →
          posted (snd (Connection.sendPreparedRequest repr self x w)) = posted w)
  ∧ (∀ msg msg', ValueError msg ≠ CloudRunError msg')
  ∧ (∀ r, Connection.sendPreparedRequest repr self (Obj_Request r) w
          = (m <- Request.get_module r;;
             d <- Request.data r;;
             Connection.sendRequest repr self m (VDict d)) w)
  ∧ (∀ r o, objects w !! r = Some o →
            Connection.sendPreparedRequest repr self (Obj_Request r) w
            = Connection.sendRequest repr self (module o) (VDict (Request_data w)) w).
Proof.
  split; [|split; [|split; [discriminate|split; [reflexivity|]]]].
  - intros [r | r | v] Hx; [discriminate Hx | reflexivity | reflexivity].
  - intros [r | r | v] Hx; [discriminate Hx | reflexivity | reflexivity].
  - intros r o Ho.
    unfold Connection.sendPreparedRequest, Request.get_module, Request.data.
    run. rewrite Ho. reflexivity.
Qed.

(** An error status ends the dispatch before the body is looked at. *)
Lemma request_error_status
    (self : Connection.t) (handler : pyval) (payload : gmap string pyval)
    (w : world) (r : requests.Response) :
  remote w (Connection.post_args repr self handler payload) = requests.Returns r →
  (400 ≤ requests.status_code r < 600)%Z →
  Connection.__request repr self handler payload w
  = (Raise (HTTPError (requests.status_code r)),
     log_post (Connection.post_args repr self handler payload) w).
Proof.
  intros Hr Hs.
  unfold Connection.__request, Connection.post, Connection.raise_for_status. run.
  rewrite Hr. cbn.
  replace (requests.is_error_status (requests.status_code r)) with true; [reflexivity|].
  unfold requests.is_error_status. symmetry. apply andb_true_iff. split; lia.
Qed.

(** C5, as the code has it: when the transport returns a status from 400
    to 599, the dispatch raises [HTTPError] for it, whatever the body
    holds: the body is neither decoded nor searched for an error marker,
    no [CloudRunError] is raised and no [Response] is returned. This holds
    for [__request] and for the entry points built on it. *)
Theorem C5_error_status_fails_first
    (self : Connection.t) (handler : pyval) (payload : gmap string pyval)
    (w : world) (r : requests.Response) :
  remote w (Connection.post_args repr self handler payload) = requests.Returns r →
  (400 ≤ requests.status_code r < 600)%Z →
  Connection.__request repr self handler payload w
  = (Raise (HTTPError (requests.status_code r)),
     log_post (Connection.post_args repr self handler payload) w)
  ∧ (∀ data,
       payload = <["data" := data]> (<["token" := Connection.token self]> ∅) →
       Connection.sendCustomRequest repr self handler data w
       = (Raise (HTTPError (requests.status_code r)),
          log_post (Connection.post_args repr self handler payload) w))
  ∧ (∀ module data,
       handler = VStr "request" →
       payload = <["data" := data]> (<["module" := module]>
                   (<["token" := Connection.token self]> ∅)) →
       Connection.sendRequest repr self module data w
       = (Raise (HTTPError (requests.status_code r)),
          log_post (Connection.post_args repr self handler payload) w)).
Proof.
  intros Hr Hs.
  pose proof (request_error_status self handler payload w r Hr Hs) as H.
  split; [exact H|]. split.
  - intros data ->. apply sendCustomRequest_raises, H.
  - intros module data -> ->. apply sendRequest_raises, H.
Qed.

(** A body with the error marker, once decoded, ends the dispatch with
    [CloudRunError] and the formatted text. *)
Lemma request_error_marker
    (self : Connection.t) (handler : pyval) (payload : gmap string pyval)
    (w : world) (r : requests.Response) (code message : pyval) :
  remote w (Connection.post_args repr self handler payload) = requests.Returns r →
  requests.is_error_status (requests.status_code r) = false →
  has_error_marker r code message →
  Connection.__request repr self handler payload w
  = (Raise (CloudRunError ("Error " +:+ str code +:+ ": " +:+ str message)),
     log_post (Connection.post_args repr self handler payload) w).
Proof.
  intros Hr Hs (d & e & Hj & He & Hc & Hm).
  unfold Connection.__request, Connection.post, Connection.raise_for_status,
    Response.json.
  run. rewrite Hr. cbn. rewrite Hs. cbn. rewrite Hj. cbn.
  rewrite bool_decide_eq_true_2 by (rewrite He; eauto). cbn.
  rewrite He. cbn. rewrite Hc. cbn. rewrite Hm. reflexivity.
Qed.

(** C2, as the code has it: when the decoded body holds the error marker,
    the dispatch raises [CloudRunError] with the single argument
    ["Error <code>: <message>"], [str] applied to both; the exception has no
    other content, and no [Response] is returned. This holds for
    [__request] and for the entry points built on it. *)
Theorem C2_error_marker_raises
    (self : Connection.t) (handler : pyval) (payload : gmap string pyval)
    (w : world) (r : requests.Response) (code message : pyval) :
  remote w (Connection.post_args repr self handler payload) = requests.Returns r →
  requests.is_error_status (requests.status_code r) = false →
  has_error_marker r code message →
  Connection.__request repr self handler payload w
  = (Raise (CloudRunError ("Error " +:+ str code +:+ ": " +:+ str message)),
     log_post (Connection.post_args repr self handler payload) w)
  ∧ (∀ data,
       payload = <["data" := data]> (<["token" := Connection.token self]> ∅) →
       Connection.sendCustomRequest repr self handler data w
       = (Raise (CloudRunError ("Error " +:+ str code +:+ ": " +:+ str message)),
          log_post (Connection.post_args repr self handler payload) w))
  ∧ (∀ module data,
       handler = VStr "request" →
       payload = <["data" := data]> (<["module" := module]>
                   (<["token" := Connection.token self]> ∅)) →
       Connection.sendRequest repr self module data w
       = (Raise (CloudRunError ("Error " +:+ str code +:+ ": " +:+ str message)),
          log_post (Connection.post_args repr self handler payload) w)).
Proof.
  intros Hr Hs Hmark.
  pose proof (request_error_marker self handler payload w r code message Hr Hs Hmark) as H.
  split; [exact H|]. split.
  - intros data ->. apply sendCustomRequest_raises, H.
  - intros module data -> ->. apply sendRequest_raises, H.
Qed.

End dispatch_facts.

(** ** Files *)

(** [setDataFromFile], case by case: a file object, another object with
    [read()], or an object without. *)
Lemma setDataFromFile_cases (self : Request.t) (name : string) (fd : nat) (w : world) :
  Request.setDataFromFile self name fd w
  = match files w !! fd with
    | Some f =>
        if closed f then (Raise (ValueError (closed_text w fd)), w)
        else match pending f with
             | Raise e => (Raise e, w)
             | Return (RStr s) =>
                 (Raise (TypeError "a bytes-like object is required, not 'str'"),
                  set_file fd {| closed := false; pending := Return (RStr "") |} w)
             | Return (RBytes b) =>
                 (Return tt,
                  set_file fd {| closed := true; pending := Return (RBytes []) |}
                    (set_Request_data
                       (<[name := VStr (string_of_list_byte (base64.standard_b64encode b))]>
                          (Request_data w))
                       (set_file fd {| closed := false; pending := Return (RBytes []) |} w)))
             end
    | None =>
        match readers w !! fd with
        | None => (Raise no_read, w)
        | Some r =>
            match r_read r with
            | Raise e => (Raise e, w)
            | Return (RStr s) =>
                (Raise (TypeError "a bytes-like object is required, not 'str'"),
                 set_reader fd {| r_read := Return (RStr ""); r_close := r_close r |} w)
            | Return (RBytes b) =>
                (Raise (r_close r),
                 set_Request_data
                   (<[name := VStr (string_of_list_byte (base64.standard_b64encode b))]>
                      (Request_data w))
                   (set_reader fd {| r_read := Return (RBytes []); r_close := r_close r |} w))
            end
        end
    end.
Proof.
  unfold Request.setDataFromFile, file_read, file_close, Request.setData, Request.data.
  run.
  destruct (files w !! fd) as [[c p]|] eqn:Hf; cbn.
  - destruct c; cbn; [reflexivity|].
    destruct p as [[b | s] | e]; cbn; try reflexivity.
    destruct (b64decode_stored b) as [-> _]. cbn.
    rewrite lookup_insert_eq. reflexivity.
  - destruct (readers w !! fd) as [[rd cl]|]; cbn; [|reflexivity].
    destruct rd as [[b | s] | e]; cbn; try reflexivity.
    destruct (b64decode_stored b) as [-> _]. cbn.
    rewrite Hf. cbn. rewrite lookup_insert_eq. reflexivity.
Qed.

(** C3, as the code has it: when [setDataFromFile] returns, the file is
    closed; when it raises (the read fails, or the content is not bytes),
    [close] has not been reached and the file is open or closed as it was
    before the call. *)
Theorem C3_file_closed_on_return
    (self : Request.t) (name : string) (fd : nat) (w : world) :
  match Request.setDataFromFile self name fd w with
  | (Return _, w') => closed <$> files w' !! fd = Some true
  | (Raise _, w') => closed <$> files w' !! fd = closed <$> files w !! fd
  end.
Proof.
  rewrite setDataFromFile_cases.
  destruct (files w !! fd) as [[c p]|] eqn:Hf; cbn.
  - destruct c; cbn; rewrite ?Hf; [reflexivity|].
    destruct p as [[b | s] | e]; cbn; rewrite ?Hf; try reflexivity.
    + rewrite lookup_insert_eq. reflexivity.
    + rewrite lookup_insert_eq. reflexivity.
  - destruct (readers w !! fd) as [[rd cl]|]; cbn; rewrite ?Hf; [|reflexivity].
    destruct rd as [[b | s] | e]; cbn; rewrite ?Hf; reflexivity.
Qed.

(** C7: from an open file whose [read()] returns the bytes [b],
    [setDataFromFile(name, file)] returns having stored under [name] the
    standard base64 text of [b]: an ASCII string that the decoder turns
    back into [b]. *)
Theorem C7_setDataFromFile_roundtrip
    (self : Request.t) (name : string) (fd : nat) (w : world)
    (f : file) (b : list byte) :
  files w !! fd = Some f →
  closed f = false →
  pending f = Return (RBytes b) →
  ∃ (w' : world) (s : string),
    Request.setDataFromFile self name fd w = (Return tt, w')
    ∧ Request_data w' !! name = Some (VStr s)
    ∧ s = string_of_list_byte (base64.standard_b64encode b)
    ∧ forallb is_ascii_byte (list_byte_of_string s) = true
    ∧ base64.b64decode s = Some b.
Proof.
  intros Hf Hc Hp.
  destruct (b64decode_stored b) as [Hdec Hback].
  eexists _, _. split; [|split; [|split; [reflexivity|split]]].
  - unfold Request.setDataFromFile, file_read, file_close, Request.setData, Request.data.
    run. rewrite Hf. cbn. rewrite Hc. cbn. rewrite Hp. cbn. rewrite Hdec. cbn.
    rewrite lookup_insert_eq. reflexivity.
  - cbn. apply lookup_insert_eq.
  - rewrite list_byte_of_string_of_list_byte. apply encode_ascii.
  - exact Hback.
Qed.

(** ** Runs on concrete inputs *)


Lemma C7_roundtrip_hello :
  files (with_file (Return (RBytes hello))) !! 0%nat
  = Some {| closed := false; pending := Return (RBytes hello) |}
  ∧ ∃ (w' : world) (s : string),
      Request.setDataFromFile 0%nat "upload" 0%nat (with_file (Return (RBytes hello)))
      = (Return tt, w')
      ∧ Request_data w' !! "upload" = Some (VStr s)
      ∧ s = string_of_list_byte (base64.standard_b64encode hello)
      ∧ forallb is_ascii_byte (list_byte_of_string s) = true
      ∧ base64.b64decode s = Some hello.
Proof.
  split; [reflexivity|].
  apply (C7_setDataFromFile_roundtrip 0%nat "upload" 0%nat
           (with_file (Return (RBytes hello)))
           {| closed := false; pending := Return (RBytes hello) |} hello);
    reflexivity.
Defined.

Example stored_hello :
  Request_data (snd (Request.setDataFromFile 0%nat "upload" 0%nat
                       (with_file (Return (RBytes hello))))) !! "upload"
  = Some (VStr "aGVsbG8sIHdvcmxkIQ==").
Proof. reflexivity. Qed.

(** A file opened in text mode: [read()] returns a [str], the encoder
    refuses it, and the call ends with the file still open. The same
    happens when the read itself fails. *)
Lemma C3_file_left_open :
  Request.setDataFromFile 0%nat "upload" 0%nat (with_file (Return (RStr "plain text")))
  = (Raise (TypeError "a bytes-like object is required, not 'str'"),
     set_file 0%nat {| closed := false; pending := Return (RStr "") |}
       (with_file (Return (RStr "plain text"))))
  ∧ closed <$> files (snd (Request.setDataFromFile 0%nat "upload" 0%nat
                             (with_file (Return (RStr "plain text"))))) !! 0%nat
    = Some false
  ∧ closed <$> files (snd (Request.setDataFromFile 0%nat "upload" 0%nat
                             (with_file (Raise (OSError "Input/output error"))))) !! 0%nat
    = Some false.
Proof. repeat split. Qed.



Lemma bad_token_marker : has_error_marker bad_token (VInt 42) (VStr "bad token").
Proof.
  exists {[ "error" := VDict (<["message" := VStr "bad token"]> {[ "code" := VInt 42 ]}) ]},
         (<["message" := VStr "bad token"]> {[ "code" := VInt 42 ]}).
  repeat split.
Qed.

Lemma C2_bad_token :
  has_error_marker bad_token (VInt 42) (VStr "bad token")
  ∧ Connection.sendRequest no_containers example_connection (VStr "mail") (VDict ∅)
      (answering bad_token)
    = (Raise (CloudRunError "Error 42: bad token"),
       log_post (Connection.post_args no_containers example_connection (VStr "request")
                   (module_payload example_connection (VStr "mail") (VDict ∅)))
                (answering bad_token)).
Proof.
  split; [exact bad_token_marker|].
  apply (C2_error_marker_raises no_containers example_connection (VStr "request")
           (module_payload example_connection (VStr "mail") (VDict ∅))
           (answering bad_token) bad_token (VInt 42) (VStr "bad token")
           eq_refl eq_refl bad_token_marker);
    reflexivity.
Defined.

(** Two replies that differ in code and message raise one and the same
    exception: what is raised holds the text and not the fields. *)
Lemma C2_fields_lost_in_text :
  fst (Connection.sendRequest no_containers example_connection (VStr "mail") (VDict ∅)
         (answering (reply 200 (error_body (VStr "1: 2") (VStr "3")))))
  = Raise (CloudRunError "Error 1: 2: 3")
  ∧ fst (Connection.sendRequest no_containers example_connection (VStr "mail") (VDict ∅)
           (answering (reply 200 (error_body (VStr "1") (VStr "2: 3")))))
    = Raise (CloudRunError "Error 1: 2: 3")
  ∧ VStr "1: 2" ≠ VStr "1"
  ∧ VStr "3" ≠ VStr "2: 3".
Proof. repeat split; discriminate. Qed.

(** So no function of the exception gives the code back. *)
Lemma no_code_accessor :
  ¬ ∃ code_of : exn → pyval,
      ∀ code message,
        code_of (CloudRunError (Connection.error_text no_containers code message)) = code.
Proof.
  intros [code_of H].
  pose proof (H (VStr "1: 2") (VStr "3")) as H1.
  pose proof (H (VStr "1") (VStr "2: 3")) as H2.
  assert (E : Connection.error_text no_containers (VStr "1: 2") (VStr "3")
             = Connection.error_text no_containers (VStr "1") (VStr "2: 3"))
    by reflexivity.
  rewrite E, H2 in H1. discriminate.
Qed.


Lemma C5_not_found :
  (400 ≤ requests.status_code not_found < 600)%Z
  ∧ Connection.sendRequest no_containers example_connection (VStr "mail") (VDict ∅)
      (answering not_found)
    = (Raise (HTTPError 404),
       log_post (Connection.post_args no_containers example_connection (VStr "request")
                   (module_payload example_connection (VStr "mail") (VDict ∅)))
                (answering not_found)).
Proof.
  split; [cbn; lia|].
  apply (C5_error_status_fails_first no_containers example_connection (VStr "request")
           (module_payload example_connection (VStr "mail") (VDict ∅))
           (answering not_found) not_found eq_refl);
    [cbn; lia | reflexivity | reflexivity].
Defined.

(** Status 300 (Multiple Choices) is outside 2xx and is no error for [raise_for_status]: the
    body is decoded, an error marker in it raises [CloudRunError], and a
    body without one comes back in a [Response]. *)
Lemma C5_status_300_passes :
  fst (Connection.sendRequest no_containers example_connection (VStr "mail") (VDict ∅)
         (answering (reply 300 (error_body (VInt 42) (VStr "bad token")))))
  = Raise (CloudRunError "Error 42: bad token")
  ∧ fst (Connection.sendRequest no_containers example_connection (VStr "mail") (VDict ∅)
           (answering (reply 300 ok_body)))
    = Return {| Response.raw := reply 300 ok_body;
                Response.response := ok_body;
                Response.status_code := 300;
                Response.headers := ∅ |}.
Proof. split; reflexivity. Qed.

(** An instance of a subclass of [Request] is a [Request] instance for
    [isinstance] and is refused all the same: nothing is posted, where
    [sendRequest] with its module and data posts and returns. *)
Lemma C4_subclass_instance_refused :
  isinstance_Request (Obj_subclass 0) = true
  ∧ Connection.sendPreparedRequest no_containers example_connection (Obj_subclass 0)
      (one_request (reply 200 ok_body))
    = (Raise (ValueError "request has to be a Request object"),
       one_request (reply 200 ok_body))
  ∧ fst (Connection.sendRequest no_containers example_connection (VStr "mail")
           (VDict {[ "to" := VStr "ops" ]}) (one_request (reply 200 ok_body)))
    = Return {| Response.raw := reply 200 ok_body;
                Response.response := ok_body;
                Response.status_code := 200;
                Response.headers := ∅ |}
  ∧ length (posted (snd (Connection.sendRequest no_containers example_connection
                           (VStr "mail") (VDict {[ "to" := VStr "ops" ]})
                           (one_request (reply 200 ok_body)))))
    = 1.
Proof. repeat split. Qed.

Lemma C8_custom_status :
  Connection.url example_connection = VStr "https://cloud.example"
  ∧ Connection.port example_connection = VInt 8443
  ∧ (∃ c : requests.call,
        snd (Connection.sendCustomRequest no_containers example_connection
               (VStr "status") (VDict ∅) offline)
        = log_post c offline
        ∧ posted (snd (Connection.sendCustomRequest no_containers example_connection
                         (VStr "status") (VDict ∅) offline))
          = posted offline ++ [c]
        ∧ requests.c_url c = "https://cloud.example:8443/status/"%string
        ∧ requests.c_json c !! "token" = Some (VStr "secret")
        ∧ requests.c_json c !! "data" = Some (VDict ∅)
        ∧ requests.c_json c !! "module" = None
        ∧ dom (requests.c_json c) = {[ "token"; "data" ]})
  ∧ (∀ module, ∃ c : requests.call,
        posted (snd (Connection.sendRequest no_containers example_connection
                       module (VDict ∅) offline))
        = posted offline ++ [c]
        ∧ requests.c_url c = "https://cloud.example:8443/request/"%string).
Proof.
  split; [reflexivity|]. split; [reflexivity|].
  apply (C8_sendCustomRequest_envelope no_containers example_connection
           (VStr "status") (VDict ∅) offline "https://cloud.example" "status" 8443);
    reflexivity.
Defined.

(** The specification's success case: [{"result": "ok"}] with status 200. *)
Example dispatch_ok :
  fst (Connection.sendRequest no_containers example_connection (VStr "mail") (VDict ∅)
         (answering (reply 200 ok_body)))
  = Return {| Response.raw := reply 200 ok_body;
              Response.response := ok_body;
              Response.status_code := 200;
              Response.headers := ∅ |}.
Proof. reflexivity. Qed.

Example prepared_plain_mapping :
  Connection.sendPreparedRequest no_containers example_connection
    (Obj_value (VDict {[ "module" := VStr "mail" ]})) (answering (reply 200 ok_body))
  = (Raise (ValueError "request has to be a Request object"),
     answering (reply 200 ok_body)).
Proof. reflexivity. Qed.

(* ================================================================== *)
(** * Further properties of the code                                    *)
(* ================================================================== *)

(** ** The Request builder: how the edits compose *)

(** X1: [setData] overwrites: two writes to one field leave what the
    second alone would leave, the field reads back the last value, and
    every other field is as it was. *)
Theorem X1_setData_overwrites
    (self : Request.t) (name : string) (v1 v2 : pyval) (w : world) :
  (Request.setData self name v1;; Request.setData self name v2) w
  = Request.setData self name v2 w
  ∧ Request_data (snd (Request.setData self name v2 w)) !! name = Some v2
  ∧ ∀ k, k ≠ name →
         Request_data (snd (Request.setData self name v2 w)) !! k = Request_data w !! k.
Proof.
  unfold Request.setData, Request.data. run. split; [|split].
  - unfold set_Request_data. cbn. rewrite insert_insert_eq. reflexivity.
  - apply lookup_insert_eq.
  - intros k Hk. apply lookup_insert_ne. congruence.
Qed.

(** X2: writes to two different fields can be made in either order. *)
Theorem X2_setData_commutes
    (self : Request.t) (n1 n2 : string) (v1 v2 : pyval) (w : world) :
  n1 ≠ n2 →
  (Request.setData self n1 v1;; Request.setData self n2 v2) w
  = (Request.setData self n2 v2;; Request.setData self n1 v1) w.
Proof.
  intros Hne. unfold Request.setData, Request.data. run.
  unfold set_Request_data. cbn. rewrite insert_insert_ne by congruence. reflexivity.
Qed.

Lemma X2_setData_commutes_to_cc :
  "to"%string ≠ "cc"%string
  ∧ (Request.setData 0 "to" (VStr "ops");; Request.setData 0 "cc" (VStr "dev")) offline
    = (Request.setData 0 "cc" (VStr "dev");; Request.setData 0 "to" (VStr "ops")) offline.
Proof.
  split; [discriminate|].
  apply (X2_setData_commutes 0 "to" "cc" (VStr "ops") (VStr "dev") offline).
  discriminate.
Defined.

(** X3: a field that was absent, once set and removed again, leaves the
    data map as it was; both calls return. *)
Theorem X3_set_then_remove
    (self : Request.t) (name : string) (value : pyval) (w : world) :
  Request_data w !! name = None →
  fst ((Request.setData self name value;; Request.removeData self name) w) = Return tt
  ∧ Request_data (snd ((Request.setData self name value;;
                        Request.removeData self name) w))
    = Request_data w.
Proof.
  intros Hn. unfold Request.setData, Request.removeData, Request.data. run.
  rewrite lookup_insert_eq. cbn.
  rewrite delete_insert_eq, delete_id by exact Hn. split; reflexivity.
Qed.

Lemma X3_set_then_remove_cc :
  Request_data (one_request bad_token) !! "cc" = None
  ∧ fst ((Request.setData 0 "cc" (VStr "dev");; Request.removeData 0 "cc")
           (one_request bad_token)) = Return tt
  ∧ Request_data (snd ((Request.setData 0 "cc" (VStr "dev");;
                        Request.removeData 0 "cc") (one_request bad_token)))
    = Request_data (one_request bad_token).
Proof.
  split; [reflexivity|].
  apply (X3_set_then_remove 0 "cc" (VStr "dev") (one_request bad_token)).
  reflexivity.
Defined.

(** X4: removing the same field twice in a row always ends in [KeyError]
    for that field, whatever the data map held; afterwards the map is the
    old one without that field. *)
Theorem X4_remove_twice (self : Request.t) (name : string) (w : world) :
  fst ((Request.removeData self name;; Request.removeData self name) w)
  = Raise (KeyError name)
  ∧ Request_data (snd ((Request.removeData self name;;
                        Request.removeData self name) w))
    = delete name (Request_data w).
Proof.
  unfold Request.removeData, Request.data. run.
  destruct (Request_data w !! name) as [v|] eqn:E; cbn.
  - rewrite lookup_delete_eq. cbn. split; reflexivity.
  - split; [reflexivity|]. symmetry. apply delete_id, E.
Qed.

(** X5: once [clearData] has run, every field is absent: [removeData]
    raises [KeyError] for any name, and a field set afterwards is the only
    one the map holds. *)
Theorem X5_clear_empties
    (self : Request.t) (name other : string) (value : pyval) (w : world) :
  fst ((Request.clearData self;; Request.removeData self name) w) = Raise (KeyError name)
  ∧ (other ≠ name →
     fst ((Request.clearData self;; Request.setData self name value;;
           Request.removeData self other) w)
     = Raise (KeyError other)).
Proof.
  unfold Request.clearData, Request.removeData, Request.setData, Request.data. run.
  split.
  - rewrite lookup_empty. reflexivity.
  - intros Hne. rewrite lookup_insert_ne, lookup_empty by congruence. reflexivity.
Qed.

(** X6: [Request(module)] makes an object that was not there before, whose
    [module] reads back as given; the requests that existed keep their
    modules, and the data map is not reset. *)
Theorem X6_new_request (m : pyval) (w : world) :
  ∃ (r : Request.t) (w' : world),
    Request.new m w = (Return r, w')
    ∧ objects w !! r = None
    ∧ Request.get_module r w' = (Return m, w')
    ∧ (∀ r0 o, objects w !! r0 = Some o → Request.get_module r0 w' = (Return (module o), w'))
    ∧ Request_data w' = Request_data w.
Proof.
  remember (fresh (dom (objects w))) as r eqn:Er.
  assert (Hr : objects w !! r = None).
  { subst r. apply not_elem_of_dom, is_fresh. }
  exists r, (set_object r {| module := m |} w).
  split; [subst r; reflexivity|]. clear Er.
  split; [exact Hr|]. split; [|split].
  - unfold Request.get_module. run. rewrite lookup_insert_eq. reflexivity.
  - intros r0 o Ho. unfold Request.get_module. run.
    rewrite lookup_insert_ne
      by (intros ->; discriminate (eq_trans (eq_sym Hr) Ho)).
    rewrite Ho. reflexivity.
  - reflexivity.
Qed.

(** ** Files: what a call leaves behind *)

(** X7: whatever the outcome, [setDataFromFile] changes no field other
    than [name] and leaves the requests, the POSTs made and every other
    handle untouched. When it raises, nothing has been stored, with one
    exception: the object's [read()] returned bytes and it was [close()]
    that raised; then the field is already in the data map. For a file
    object a raising call never stores. *)
Theorem X7_setDataFromFile_frame
    (self : Request.t) (name : string) (fd : nat) (w : world) :
  (∀ k, k ≠ name →
        Request_data (snd (Request.setDataFromFile self name fd w)) !! k
        = Request_data w !! k)
  ∧ objects (snd (Request.setDataFromFile self name fd w)) = objects w
  ∧ posted (snd (Request.setDataFromFile self name fd w)) = posted w
  ∧ (∀ fd', fd' ≠ fd →
        files (snd (Request.setDataFromFile self name fd w)) !! fd' = files w !! fd'
        ∧ readers (snd (Request.setDataFromFile self name fd w)) !! fd'
          = readers w !! fd')
  ∧ (∀ e, fst (Request.setDataFromFile self name fd w) = Raise e →
        Request_data (snd (Request.setDataFromFile self name fd w)) = Request_data w
        ∨ ∃ (r : reader) (b : list byte),
            files w !! fd = None
            ∧ readers w !! fd = Some r
            ∧ r_read r = Return (RBytes b)
            ∧ e = r_close r
            ∧ Request_data (snd (Request.setDataFromFile self name fd w))
              = <[name := VStr (string_of_list_byte (base64.standard_b64encode b))]>
                  (Request_data w)).
Proof.
  rewrite setDataFromFile_cases.
  destruct (files w !! fd) as [[c p]|] eqn:Hf; cbn.
  - destruct c; cbn; [by auto 10|].
    destruct p as [[b | s] | e]; cbn; [| |by auto 10].
    + split; [|split; [reflexivity|split; [reflexivity|split]]].
      * intros k Hk. apply lookup_insert_ne. congruence.
      * intros fd' Hne. rewrite !lookup_insert_ne by congruence. auto.
      * intros e [=].
    + split; [reflexivity|split; [reflexivity|split; [reflexivity|split]]].
      * intros fd' Hne. rewrite lookup_insert_ne by congruence. auto.
      * auto.
  - destruct (readers w !! fd) as [[rd cl]|] eqn:Hr; cbn; [|by auto 10].
    destruct rd as [[b | s] | e]; cbn; [| |by auto 10].
    + split; [|split; [reflexivity|split; [reflexivity|split]]].
      * intros k Hk. apply lookup_insert_ne. congruence.
      * intros fd' Hne. rewrite lookup_insert_ne by congruence. auto.
      * intros e [= <-]. right. exists {| r_read := Return (RBytes b); r_close := cl |}, b.
        auto 10.
    + split; [reflexivity|split; [reflexivity|split; [reflexivity|split]]].
      * intros fd' Hne. rewrite lookup_insert_ne by congruence. auto.
      * auto.
Qed.

(** An object with [read()] and no [close()]: the call raises at
    [file.close()], and the field is in the data map. *)
Example stored_before_close_fails :
  Request.setDataFromFile 0%nat "upload" 0%nat (with_reader (Return (RBytes hello)))
  = (Raise (AttributeError "object has no attribute 'close'"),
     set_Request_data {[ "upload" := VStr "aGVsbG8sIHdvcmxkIQ==" ]}
       (set_reader 0%nat
          {| r_read := Return (RBytes []);
             r_close := AttributeError "object has no attribute 'close'" |}
          (with_reader (Return (RBytes hello))))).
Proof. reflexivity. Qed.


(** On the handle [open(path, 'rb')] gives, the text is [read of closed
    file]. *)
Example second_read_of_binary_file :
  fst ((Request.setDataFromFile 0%nat "a" 0%nat;; Request.setDataFromFile 0%nat "b" 0%nat)
         (with_file (Return (RBytes hello))))
  = Raise (ValueError "read of closed file").
Proof. reflexivity. Qed.

Lemma length_string_of_list_byte (l : list byte) :
  String.length (string_of_list_byte l) = length l.
Proof.
  induction l as [|b l IH]; [reflexivity|]. cbn. f_equal. exact IH.
Qed.

Lemma length_standard_b64encode (b : list byte) :
  length (base64.standard_b64encode b) = 4 * ((length b + 2) / 3).
Proof.
  induction b as [| x | x y | x y z rest IH] using list_ind3; try reflexivity.
  cbn [base64.standard_b64encode length]. cbv zeta. cbn [length]. rewrite IH.
  replace (S (S (S (length rest))) + 2) with (length rest + 2 + 1 * 3) by lia.
  rewrite Nat.div_add by discriminate. lia.
Qed.

(** X9: the text stored for [n] bytes has [4 * ceil(n / 3)] characters:
    four for every three bytes, the last group padded; an empty file gives
    the empty string. *)
Theorem X9_stored_length
    (self : Request.t) (name : string) (fd : nat) (w : world)
    (f : file) (b : list byte) :
  files w !! fd = Some f →
  closed f = false →
  pending f = Return (RBytes b) →
  ∃ s : string,
    Request_data (snd (Request.setDataFromFile self name fd w)) !! name = Some (VStr s)
    ∧ String.length s = 4 * ((length b + 2) / 3)
    ∧ (b = [] → s = ""%string).
Proof.
  intros Hf Hc Hp. rewrite setDataFromFile_cases, Hf, Hc, Hp. cbn.
  eexists. split; [apply lookup_insert_eq|]. split.
  - rewrite length_string_of_list_byte. apply length_standard_b64encode.
  - intros ->. reflexivity.
Qed.

Lemma X9_stored_length_hello :
  files (with_file (Return (RBytes hello))) !! 0%nat
  = Some {| closed := false; pending := Return (RBytes hello) |}
  ∧ ∃ s : string,
      Request_data (snd (Request.setDataFromFile 0%nat "upload" 0%nat
                           (with_file (Return (RBytes hello))))) !! "upload"
      = Some (VStr s)
      ∧ String.length s = 4 * ((length hello + 2) / 3)
      ∧ (hello = [] → s = ""%string).
Proof.
  split; [reflexivity|].
  apply (X9_stored_length 0%nat "upload" 0%nat (with_file (Return (RBytes hello)))
           {| closed := false; pending := Return (RBytes hello) |} hello);
    reflexivity.
Defined.

(** ** One dispatch: every way it can end *)

Section dispatch_outcomes.

Variable repr : pyval → string.

Local Notation "'str'" := (py_str repr).

Ltac run_request :=
  unfold Connection.__request, Connection.post, Connection.raise_for_status,
    Response.json;
  run.

(** The entry points end as [__request] ends. *)
Lemma entry_points_raise self handler payload w e w' :
  Connection.__request repr self handler payload w = (Raise e, w') →
  dispatch_raises repr self handler payload w e w'.
Proof.
  intros H. split; [exact H|]. split.
  - intros data ->. apply sendCustomRequest_raises, H.
  - intros module data -> ->. apply sendRequest_raises, H.
Qed.

Lemma entry_points_return self handler payload w req resp w' :
  Connection.__request repr self handler payload w = (Return req, w') →
  Response.__init__ req w' = (Return resp, w') →
  dispatch_returns repr self handler payload w req resp w'.
Proof.
  intros H Hinit. split; [exact H|]. split.
  - intros data ->. unfold Connection.sendCustomRequest, bind.
    unfold custom_payload in H. rewrite H. exact Hinit.
  - intros module data -> ->. unfold Connection.sendRequest, bind.
    unfold module_payload in H. rewrite H. exact Hinit.
Qed.

(** X10: a reply whose status is no error and whose body is a JSON object
    without an [error] key is a success: the dispatch returns the raw
    reply, and the entry points return a [Response] that holds the raw
    reply, the decoded body, the status code and the headers. Keys called
    [error] deeper inside the body do not count. *)
Theorem X10_success_response
    (self : Connection.t) (handler : pyval) (payload : gmap string pyval)
    (w : world) (r : requests.Response) (d : gmap string pyval) :
  remote w (Connection.post_args repr self handler payload) = requests.Returns r →
  requests.is_error_status (requests.status_code r) = false →
  requests.json r = Some (VDict d) →
  d !! "error" = None →
  dispatch_returns repr self handler payload w r
    {| Response.raw := r;
       Response.response := VDict d;
       Response.status_code := requests.status_code r;
       Response.headers := requests.headers r |}
    (log_post (Connection.post_args repr self handler payload) w).
Proof.
  intros Hr Hs Hj He. apply entry_points_return.
  - run_request. rewrite Hr. cbn. rewrite Hs. cbn. rewrite Hj. cbn.
    rewrite bool_decide_eq_false_2; [reflexivity|].
    rewrite He. apply is_Some_None.
  - unfold Response.__init__, Response.json. run. rewrite Hj. reflexivity.
Qed.

(** X11: a reply whose status is no error and whose body is not JSON
    raises the decoder's [JSONDecodeError]; nothing is searched for a
    marker and no [Response] is built. *)
Theorem X11_body_not_json
    (self : Connection.t) (handler : pyval) (payload : gmap string pyval)
    (w : world) (r : requests.Response) :
  remote w (Connection.post_args repr self handler payload) = requests.Returns r →
  requests.is_error_status (requests.status_code r) = false →
  requests.json r = None →
  dispatch_raises repr self handler payload w JSONDecodeError
    (log_post (Connection.post_args repr self handler payload) w).
Proof.
  intros Hr Hs Hj. apply entry_points_raise.
  run_request. rewrite Hr. cbn. rewrite Hs. cbn. rewrite Hj. reflexivity.
Qed.

(** X12: what [requests.post] raises (no connection, timeout, TLS failure)
    comes out of the dispatch unchanged, after the one POST that was
    attempted: nothing is caught, retried or replaced by a default. *)
Theorem X12_transport_error_propagates
    (self : Connection.t) (handler : pyval) (payload : gmap string pyval)
    (w : world) (e : exn) :
  remote w (Connection.post_args repr self handler payload) = requests.Raises e →
  dispatch_raises repr self handler payload w e
    (log_post (Connection.post_args repr self handler payload) w).
Proof.
  intros Hr. apply entry_points_raise.
  run_request. rewrite Hr. reflexivity.
Qed.

(** X13: an [error] object that lacks [code] raises [KeyError] for
    [code], and one that has [code] and lacks [message] raises [KeyError]
    for [message]: an incomplete marker is neither a [CloudRunError] nor a
    success. *)
Theorem X13_incomplete_marker
    (self : Connection.t) (handler : pyval) (payload : gmap string pyval)
    (w : world) (r : requests.Response) (d e : gmap string pyval) :
  remote w (Connection.post_args repr self handler payload) = requests.Returns r →
  requests.is_error_status (requests.status_code r) = false →
  requests.json r = Some (VDict d) →
  d !! "error" = Some (VDict e) →
  (e !! "code" = None →
   dispatch_raises repr self handler payload w (KeyError "code")
     (log_post (Connection.post_args repr self handler payload) w))
  ∧ (is_Some (e !! "code") → e !! "message" = None →
     dispatch_raises repr self handler payload w (KeyError "message")
       (log_post (Connection.post_args repr self handler payload) w)).
Proof.
  intros Hr Hs Hj He.
  assert (Hin : bool_decide (is_Some (d !! "error")) = true).
  { apply bool_decide_eq_true_2. rewrite He. eauto. }
  split.
  - intros Hc. apply entry_points_raise.
    run_request. rewrite Hr. cbn. rewrite Hs. cbn. rewrite Hj. cbn.
    rewrite Hin. cbn. rewrite He. cbn. rewrite Hc. reflexivity.
  - intros [c Hc] Hm. apply entry_points_raise.
    run_request. rewrite Hr. cbn. rewrite Hs. cbn. rewrite Hj. cbn.
    rewrite Hin. cbn. rewrite He. cbn. rewrite Hc. cbn. rewrite Hm. reflexivity.
Qed.

(** X14: an [error] key bound to anything but an object (a string, a
    number, null, a list) raises [TypeError]: the marker is only read from
    an object. *)
Theorem X14_marker_not_an_object
    (self : Connection.t) (handler : pyval) (payload : gmap string pyval)
    (w : world) (r : requests.Response) (d : gmap string pyval) (v : pyval) :
  remote w (Connection.post_args repr self handler payload) = requests.Returns r →
  requests.is_error_status (requests.status_code r) = false →
  requests.json r = Some (VDict d) →
  d !! "error" = Some v →
  is_dict v = false →
  ∃ msg : string,
    dispatch_raises repr self handler payload w (TypeError msg)
      (log_post (Connection.post_args repr self handler payload) w).
Proof.
  intros Hr Hs Hj He Hv.
  assert (Hin : bool_decide (is_Some (d !! "error")) = true).
  { apply bool_decide_eq_true_2. rewrite He. eauto. }
  assert (H : ∃ msg, py_getitem v "code" = Raise (TypeError msg)).
  { destruct v; try discriminate Hv; cbn; eauto. }
  destruct H as [msg Hmsg]. exists msg. apply entry_points_raise.
  run_request. rewrite Hr. cbn. rewrite Hs. cbn. rewrite Hj. cbn.
  rewrite Hin. cbn. rewrite He. cbn. rewrite Hmsg. reflexivity.
Qed.

(** X15: [CloudRunError] comes from the marker and from nothing else: when
    the transport returned a reply and the dispatch raised [CloudRunError],
    the status was no error, the body was an object whose [error] object
    holds [code] and [message], and the text is the one formatted from
    them. *)
Theorem X15_CloudRunError_only_from_marker
    (self : Connection.t) (handler : pyval) (payload : gmap string pyval)
    (w : world) (r : requests.Response) (msg : string) :
  remote w (Connection.post_args repr self handler payload) = requests.Returns r →
  fst (Connection.__request repr self handler payload w) = Raise (CloudRunError msg) →
  requests.is_error_status (requests.status_code r) = false
  ∧ ∃ code message,
      has_error_marker r code message
      ∧ msg = "Error " +:+ str code +:+ ": " +:+ str message.
Proof.
  intros Hr. run_request. rewrite Hr. cbn.
  destruct (requests.is_error_status _); cbn; [discriminate|].
  destruct (requests.json r) as [answer|] eqn:Hj; cbn; [|discriminate].
  destruct answer as [| b | z | s | l | d]; cbn; try discriminate.
  - destruct (is_infix "error" s); cbn; discriminate.
  - destruct (existsb (is_str "error") l); cbn; discriminate.
  - case_bool_decide as Hin; cbn; [|discriminate].
    destruct (d !! "error") as [v|] eqn:He; cbn; [|discriminate].
    destruct v as [| b | z | s | l | e]; cbn; try discriminate.
    destruct (e !! "code") as [code|] eqn:Hc; cbn; [|discriminate].
    destruct (e !! "message") as [message|] eqn:Hm; cbn; [|discriminate].
    intros [= <-]. split; [reflexivity|].
    exists code, message. split; [|reflexivity].
    exists d, e. auto.
Qed.

(** X16: the dispatch returns a reply only when the transport returned
    it, its status is no error, its body is JSON, and the test
    ['error' in answer] came out false. *)
Theorem X16_return_only_without_marker
    (self : Connection.t) (handler : pyval) (payload : gmap string pyval)
    (w : world) (req : requests.Response) :
  fst (Connection.__request repr self handler payload w) = Return req →
  remote w (Connection.post_args repr self handler payload) = requests.Returns req
  ∧ requests.is_error_status (requests.status_code req) = false
  ∧ ∃ answer, requests.json req = Some answer
              ∧ py_contains "error" answer = Return false.
Proof.
  run_request.
  destruct (remote w _) as [r | e]; cbn; [|discriminate].
  destruct (requests.is_error_status _) eqn:Hs; cbn; [discriminate|].
  destruct (requests.json r) as [answer|] eqn:Hj; cbn; [|discriminate].
  destruct (py_contains "error" answer) as [[|] | e] eqn:Hin; cbn; [| |discriminate].
  - destruct (py_getitem answer "error") as [e1 | e]; cbn; [|discriminate].
    destruct (py_getitem e1 "code") as [c | e]; cbn; [|discriminate].
    destruct (py_getitem e1 "message") as [m | e]; cbn; discriminate.
  - intros [= <-]. split; [reflexivity|]. split; [exact Hs|]. eauto.
Qed.

(** X17: [sendPreparedRequest] on a request that exists performs one POST
    to the [request] handler whose body holds the connection's token, the
    request's module and the data map as it stands at the time of the
    call; the request and the data map are left as they were, so the same
    request can be sent again. *)
Theorem X17_sendPreparedRequest_envelope
    (self : Connection.t) (r : Request.t) (o : instance) (w : world) :
  objects w !! r = Some o →
  ∃ c : requests.call,
    snd (Connection.sendPreparedRequest repr self (Obj_Request r) w) = log_post c w
    ∧ requests.c_url c
      = str (Connection.url self) +:+ ":" +:+ str (Connection.port self) +:+ "/request/"
    ∧ requests.c_json c !! "token" = Some (Connection.token self)
    ∧ requests.c_json c !! "module" = Some (module o)
    ∧ requests.c_json c !! "data" = Some (VDict (Request_data w))
    ∧ Request_data (snd (Connection.sendPreparedRequest repr self (Obj_Request r) w))
      = Request_data w
    ∧ objects (snd (Connection.sendPreparedRequest repr self (Obj_Request r) w))
      = objects w.
Proof.
  intros Ho.
  assert (E : Connection.sendPreparedRequest repr self (Obj_Request r) w
              = Connection.sendRequest repr self (module o) (VDict (Request_data w)) w).
  { unfold Connection.sendPreparedRequest, Request.get_module, Request.data.
    run. rewrite Ho. reflexivity. }
  rewrite E, sendRequest_world. eexists. split; [reflexivity|].
  split; [reflexivity|].
  cbn [Connection.post_args requests.c_json].
  split; [by simplify_map_eq|]. split; [by simplify_map_eq|]. split; [by simplify_map_eq|].
  split; reflexivity.
Qed.


End dispatch_outcomes.

(** ** The outcomes on concrete replies *)

Lemma X10_success_ok :
  requests.json (reply 200 ok_body) = Some ok_body
  ∧ dispatch_returns no_containers example_connection (VStr "request")
      (module_payload example_connection (VStr "mail") (VDict ∅))
      (answering (reply 200 ok_body)) (reply 200 ok_body)
      {| Response.raw := reply 200 ok_body;
         Response.response := ok_body;
         Response.status_code := 200;
         Response.headers := ∅ |}
      (log_post (Connection.post_args no_containers example_connection (VStr "request")
                   (module_payload example_connection (VStr "mail") (VDict ∅)))
                (answering (reply 200 ok_body))).
Proof.
  split; [reflexivity|].
  apply (X10_success_response no_containers example_connection (VStr "request")
           (module_payload example_connection (VStr "mail") (VDict ∅))
           (answering (reply 200 ok_body)) (reply 200 ok_body)
           {[ "result" := VStr "ok" ]});
    reflexivity.
Defined.

Lemma X11_not_json_reply :
  requests.json not_json = None
  ∧ dispatch_raises no_containers example_connection (VStr "request")
      (module_payload example_connection (VStr "mail") (VDict ∅))
      (answering not_json) JSONDecodeError
      (log_post (Connection.post_args no_containers example_connection (VStr "request")
                   (module_payload example_connection (VStr "mail") (VDict ∅)))
                (answering not_json)).
Proof.
  split; [reflexivity|].
  apply (X11_body_not_json no_containers example_connection (VStr "request")
           (module_payload example_connection (VStr "mail") (VDict ∅))
           (answering not_json) not_json);
    reflexivity.
Defined.

Lemma X12_connect_timeout :
  remote offline (Connection.post_args no_containers example_connection (VStr "status")
                    (custom_payload example_connection (VDict ∅)))
  = requests.Raises (RequestException "ConnectTimeout")
  ∧ dispatch_raises no_containers example_connection (VStr "status")
      (custom_payload example_connection (VDict ∅))
      offline (RequestException "ConnectTimeout")
      (log_post (Connection.post_args no_containers example_connection (VStr "status")
                   (custom_payload example_connection (VDict ∅)))
                offline).
Proof.
  split; [reflexivity|].
  apply (X12_transport_error_propagates no_containers example_connection (VStr "status")
           (custom_payload example_connection (VDict ∅)) offline
           (RequestException "ConnectTimeout")).
  reflexivity.
Defined.

Lemma X13_marker_without_code :
  ({[ "message" := VStr "boom" ]} : gmap string pyval) !! "code" = None
  ∧ dispatch_raises no_containers example_connection (VStr "request")
      (module_payload example_connection (VStr "mail") (VDict ∅))
      (answering (reply 200 (VDict {[ "error" := VDict {[ "message" := VStr "boom" ]} ]})))
      (KeyError "code")
      (log_post (Connection.post_args no_containers example_connection (VStr "request")
                   (module_payload example_connection (VStr "mail") (VDict ∅)))
                (answering (reply 200
                   (VDict {[ "error" := VDict {[ "message" := VStr "boom" ]} ]})))).
Proof.
  split; [reflexivity|].
  destruct (X13_incomplete_marker no_containers example_connection (VStr "request")
              (module_payload example_connection (VStr "mail") (VDict ∅))
              (answering (reply 200 (VDict {[ "error" := VDict {[ "message" := VStr "boom" ]} ]})))
              (reply 200 (VDict {[ "error" := VDict {[ "message" := VStr "boom" ]} ]}))
              {[ "error" := VDict {[ "message" := VStr "boom" ]} ]}
              {[ "message" := VStr "boom" ]}) as [H _];
    [reflexivity | reflexivity | reflexivity | reflexivity |].
  apply H. reflexivity.
Defined.

Lemma X14_marker_is_a_string :
  is_dict (VStr "boom") = false
  ∧ ∃ msg : string,
      dispatch_raises no_containers example_connection (VStr "request")
        (module_payload example_connection (VStr "mail") (VDict ∅))
        (answering (reply 200 (VDict {[ "error" := VStr "boom" ]})))
        (TypeError msg)
        (log_post (Connection.post_args no_containers example_connection (VStr "request")
                     (module_payload example_connection (VStr "mail") (VDict ∅)))
                  (answering (reply 200 (VDict {[ "error" := VStr "boom" ]})))).
Proof.
  split; [reflexivity|].
  apply (X14_marker_not_an_object no_containers example_connection (VStr "request")
           (module_payload example_connection (VStr "mail") (VDict ∅))
           (answering (reply 200 (VDict {[ "error" := VStr "boom" ]})))
           (reply 200 (VDict {[ "error" := VStr "boom" ]}))
           {[ "error" := VStr "boom" ]} (VStr "boom"));
    reflexivity.
Defined.

Lemma X15_bad_token_marker :
  fst (Connection.__request no_containers example_connection (VStr "request")
         (module_payload example_connection (VStr "mail") (VDict ∅))
         (answering bad_token))
  = Raise (CloudRunError "Error 42: bad token")
  ∧ requests.is_error_status (requests.status_code bad_token) = false
  ∧ ∃ code message,
      has_error_marker bad_token code message
      ∧ "Error 42: bad token"%string
        = "Error " +:+ py_str no_containers code +:+ ": " +:+ py_str no_containers message.
Proof.
  split; [reflexivity|].
  apply (X15_CloudRunError_only_from_marker no_containers example_connection
           (VStr "request")
           (module_payload example_connection (VStr "mail") (VDict ∅))
           (answering bad_token) bad_token "Error 42: bad token");
    reflexivity.
Defined.

Lemma X16_ok_returns :
  fst (Connection.__request no_containers example_connection (VStr "request")
         (module_payload example_connection (VStr "mail") (VDict ∅))
         (answering (reply 200 ok_body)))
  = Return (reply 200 ok_body)
  ∧ requests.is_error_status (requests.status_code (reply 200 ok_body)) = false
  ∧ ∃ answer, requests.json (reply 200 ok_body) = Some answer
              ∧ py_contains "error" answer = Return false.
Proof.
  split; [reflexivity|].
  apply (X16_return_only_without_marker no_containers example_connection
           (VStr "request")
           (module_payload example_connection (VStr "mail") (VDict ∅))
           (answering (reply 200 ok_body)) (reply 200 ok_body)).
  reflexivity.
Defined.

Lemma X17_prepared_mail :
  objects (one_request (reply 200 ok_body)) !! 0%nat = Some {| module := VStr "mail" |}
  ∧ ∃ c : requests.call,
      snd (Connection.sendPreparedRequest no_containers example_connection (Obj_Request 0)
             (one_request (reply 200 ok_body)))
      = log_post c (one_request (reply 200 ok_body))
      ∧ requests.c_url c = "https://cloud.example:8443/request/"%string
      ∧ requests.c_json c !! "token" = Some (VStr "secret")
      ∧ requests.c_json c !! "module" = Some (VStr "mail")
      ∧ requests.c_json c !! "data" = Some (VDict {[ "to" := VStr "ops" ]})
      ∧ Request_data (snd (Connection.sendPreparedRequest no_containers example_connection
                             (Obj_Request 0) (one_request (reply 200 ok_body))))
        = {[ "to" := VStr "ops" ]}
      ∧ objects (snd (Connection.sendPreparedRequest no_containers example_connection
                        (Obj_Request 0) (one_request (reply 200 ok_body))))
        = objects (one_request (reply 200 ok_body)).
Proof.
  split; [reflexivity|].
  apply (X17_sendPreparedRequest_envelope no_containers example_connection 0%nat
           {| module := VStr "mail" |} (one_request (reply 200 ok_body))).
  reflexivity.
Defined.
